(** * The real-time notification channel of aws-cost-sentinel

    A shallow embedding of [WebSocketClient] (the channel class of the
    front end) together with the part of the browser it talks to: the
    [WebSocket] objects it creates, the timers it arms and the listeners
    it notifies through [EventEmitter.emit].

    Conventions of the embedding.
    - The class is single threaded: every method and every callback runs
      to completion, as an [Action] on the [World].
    - [this.emit(channel, arg)] is an output: running an action yields the
      new world and the list of [(channel, arg)] it emitted, in order;
      the listeners themselves are outside the class and are taken to
      return normally.
    - A frame on the wire is JSON text.  Outbound frames are recorded as
      the value handed to [JSON.stringify]; an inbound frame is given by
      what [JSON.parse] makes of it ([ParseOutcome]).
    - JavaScript numbers: the retry counter and the retry cap are integer
      valued ([Z]).  A delay is a binary64 number: a rational ([Q]) when
      it is finite, and the arithmetic that computes it rounds to the
      nearest binary64 value ([double]).
    - An option passed to the constructor is present with a value or
      absent; a property present with the value [undefined] is outside
      the model.  An [error] listener is taken to be registered: without
      one [EventEmitter] throws from [emit('error', ...)]. *)

From Stdlib Require Import ZArith QArith Qpower Lia.
From stdpp Require Import base option list gmap strings.

Local Open Scope string_scope.
Local Open Scope list_scope.
Set Warnings "-register-all".

(** ** JavaScript values, as far as the channel looks at them *)

Inductive Value : Type :=
| VUndefined
| VNull
| VBool (b : bool)
| VNum (q : Q)
| VStr (s : string)
| VArr (xs : list Value)
| VObj (props : list (string * Value)).

(** Own property of an object literal; a missing key reads [undefined]. *)
Fixpoint assoc (k : string) (props : list (string * Value)) : Value :=
  match props with
  | [] => VUndefined
  | (k', v) :: rest => if String.eqb k k' then v else assoc k rest
  end.

(** [v.k] for the keys the channel reads ([type], [server_time]).
    Reading a property of [null] or [undefined] throws a TypeError
    ([None]); primitives and arrays have no such key. *)
Definition get_prop (v : Value) (k : string) : option Value :=
  match v with
  | VUndefined | VNull => None
  | VObj props => Some (assoc k props)
  | _ => Some VUndefined
  end.

(** What [JSON.parse(event.data)] does with a frame. *)
Inductive ParseOutcome : Type :=
| SyntaxError
| Parsed (message : Value).

(** ** Interfaces of the module *)

Record WebSocketFilters : Type := {
  message_types : option (list string);
  account_ids : option (list string)
}.

(** [None] is an absent property. *)
Record ConnectionOptions : Type := {
  token : string;
  filters : option WebSocketFilters;
  reconnectAttempts : option Z;
  reconnectDelay : option Q
}.

Definition filters_value (f : WebSocketFilters) : Value :=
  VObj
    (match message_types f with
     | Some l => [("message_types", VArr (VStr <$> l))]
     | None => []
     end ++
     match account_ids f with
     | Some l => [("account_ids", VArr (VStr <$> l))]
     | None => []
     end).

(** ** The browser side *)

Inductive ReadyState : Type := CONNECTING | OPEN | CLOSING | CLOSED.

(** A query parameter before [URLSearchParams] encodes it. *)
Inductive Param : Type :=
| PText (s : string)
| PJson (v : Value).

Record Url : Type := {
  url_prefix : string;
  url_query : list (string * Param)
}.

(** One [WebSocket] object.  [sock_sent] and [sock_close_calls] log the
    calls of [send] and [close] made on it; [sock_handlers] tells whether
    [onopen], [onmessage], [onclose] and [onerror] have been assigned. *)
Record Socket : Type := {
  sock_url : Url;
  sock_readyState : ReadyState;
  sock_handlers : bool;
  sock_sent : list Value;
  sock_close_calls : list (Z * string)
}.

(** A live timer: the heartbeat interval or a reconnect timeout with the
    delay it was armed with ([None] when the delay is not a finite
    number: [NaN] or an infinity). *)
Inductive Timer : Type :=
| PingTimer
| ReconnectTimer (delay : option Q).

(** Argument of an emitted event. *)
Inductive Payload : Type :=
| NoArg
| CloseEvent (code : Z)
| ErrorObj (message : string)
| TransportError
| ConstructorException
| Message (message : Value)
| ReconnectInfo (attempt : Z) (maxAttempts : option Z) (delay : option Q).

(** ** The instance fields of [WebSocketClient] *)

Record Client : Type := {
  ws : option nat;
  options : ConnectionOptions;
  reconnectCount : Z;
  pingInterval : option nat;
  reconnectTimeout : option nat;
  isConnecting : bool;
  shouldReconnect : bool
}.

(** The client together with everything it can reach: the sockets created
    so far (a socket is named by its index), the live timers (by handle,
    handles are handed out in order starting from 1) and the environment
    variable [NEXT_PUBLIC_WS_URL]. *)
Record World : Type := {
  this : Client;
  sockets : list Socket;
  timers : gmap nat Timer;
  next_timer : nat;
  NEXT_PUBLIC_WS_URL : option string
}.

Definition Emission : Type := string * Payload.

(** A piece of code: it changes the world and emits events. *)
Definition Action : Type := World -> World * list Emission.

Definition skip : Action := fun w => (w, []).

Definition seq (a b : Action) : Action := fun w =>
  let (w1, out1) := a w in
  let (w2, out2) := b w1 in
  (w2, out1 ++ out2).
Notation "a >>> b" := (seq a b) (at level 61, left associativity).

Definition modify (f : World -> World) : Action := fun w => (f w, []).

Definition emit (channel : string) (arg : Payload) : Action := fun w => (w, [(channel, arg)]).

(** *** Field updates *)

Definition upd_this (f : Client -> Client) (w : World) : World :=
  {| this := f (this w); sockets := sockets w; timers := timers w;
     next_timer := next_timer w; NEXT_PUBLIC_WS_URL := NEXT_PUBLIC_WS_URL w |}.

Definition upd_sockets (f : list Socket -> list Socket) (w : World) : World :=
  {| this := this w; sockets := f (sockets w); timers := timers w;
     next_timer := next_timer w; NEXT_PUBLIC_WS_URL := NEXT_PUBLIC_WS_URL w |}.

Definition upd_timers (f : gmap nat Timer -> gmap nat Timer) (w : World) : World :=
  {| this := this w; sockets := sockets w; timers := f (timers w);
     next_timer := next_timer w; NEXT_PUBLIC_WS_URL := NEXT_PUBLIC_WS_URL w |}.

Definition bump_next_timer (w : World) : World :=
  {| this := this w; sockets := sockets w; timers := timers w;
     next_timer := S (next_timer w); NEXT_PUBLIC_WS_URL := NEXT_PUBLIC_WS_URL w |}.

Definition set_ws (v : option nat) : World -> World :=
  upd_this (fun c =>
    {| ws := v; options := options c; reconnectCount := reconnectCount c;
       pingInterval := pingInterval c; reconnectTimeout := reconnectTimeout c;
       isConnecting := isConnecting c; shouldReconnect := shouldReconnect c |}).

Definition set_options (v : ConnectionOptions) : World -> World :=
  upd_this (fun c =>
    {| ws := ws c; options := v; reconnectCount := reconnectCount c;
       pingInterval := pingInterval c; reconnectTimeout := reconnectTimeout c;
       isConnecting := isConnecting c; shouldReconnect := shouldReconnect c |}).

Definition set_reconnectCount (v : Z) : World -> World :=
  upd_this (fun c =>
    {| ws := ws c; options := options c; reconnectCount := v;
       pingInterval := pingInterval c; reconnectTimeout := reconnectTimeout c;
       isConnecting := isConnecting c; shouldReconnect := shouldReconnect c |}).

Definition set_pingInterval (v : option nat) : World -> World :=
  upd_this (fun c =>
    {| ws := ws c; options := options c; reconnectCount := reconnectCount c;
       pingInterval := v; reconnectTimeout := reconnectTimeout c;
       isConnecting := isConnecting c; shouldReconnect := shouldReconnect c |}).

Definition set_reconnectTimeout (v : option nat) : World -> World :=
  upd_this (fun c =>
    {| ws := ws c; options := options c; reconnectCount := reconnectCount c;
       pingInterval := pingInterval c; reconnectTimeout := v;
       isConnecting := isConnecting c; shouldReconnect := shouldReconnect c |}).

Definition set_isConnecting (v : bool) : World -> World :=
  upd_this (fun c =>
    {| ws := ws c; options := options c; reconnectCount := reconnectCount c;
       pingInterval := pingInterval c; reconnectTimeout := reconnectTimeout c;
       isConnecting := v; shouldReconnect := shouldReconnect c |}).

Definition set_shouldReconnect (v : bool) : World -> World :=
  upd_this (fun c =>
    {| ws := ws c; options := options c; reconnectCount := reconnectCount c;
       pingInterval := pingInterval c; reconnectTimeout := reconnectTimeout c;
       isConnecting := isConnecting c; shouldReconnect := v |}).

Definition set_filters (f : WebSocketFilters) (o : ConnectionOptions) : ConnectionOptions :=
  {| token := token o; filters := Some f;
     reconnectAttempts := reconnectAttempts o; reconnectDelay := reconnectDelay o |}.

(** *** Browser primitives *)

Definition with_readyState (r : ReadyState) (s : Socket) : Socket :=
  {| sock_url := sock_url s; sock_readyState := r; sock_handlers := sock_handlers s;
     sock_sent := sock_sent s; sock_close_calls := sock_close_calls s |}.

Definition with_handlers (s : Socket) : Socket :=
  {| sock_url := sock_url s; sock_readyState := sock_readyState s; sock_handlers := true;
     sock_sent := sock_sent s; sock_close_calls := sock_close_calls s |}.

(** [socket.send(text)] on an open socket. *)
Definition with_sent (m : Value) (s : Socket) : Socket :=
  {| sock_url := sock_url s; sock_readyState := sock_readyState s;
     sock_handlers := sock_handlers s;
     sock_sent := sock_sent s ++ [m]; sock_close_calls := sock_close_calls s |}.

(** [socket.close(code, reason)]: a socket that is connecting or open
    starts closing, a socket that is closing or closed stays as it is. *)
Definition with_close (code : Z) (reason : string) (s : Socket) : Socket :=
  {| sock_url := sock_url s;
     sock_readyState :=
       match sock_readyState s with
       | CONNECTING | OPEN => CLOSING
       | r => r
       end;
     sock_handlers := sock_handlers s;
     sock_sent := sock_sent s;
     sock_close_calls := sock_close_calls s ++ [(code, reason)] |}.

Definition alter_socket (f : Socket -> Socket) (t : nat) : World -> World :=
  upd_sockets (fun l =>
    match l !! t with
    | Some s => <[t := f s]> l
    | None => l
    end).

Definition fresh_socket (u : Url) : Socket :=
  {| sock_url := u; sock_readyState := CONNECTING; sock_handlers := false;
     sock_sent := []; sock_close_calls := [] |}.

(** [this.ws = new WebSocket(url)] when the constructor returns. *)
Definition new_WebSocket (u : Url) (w : World) : World :=
  set_ws (Some (length (sockets w))) (upd_sockets (fun l => l ++ [fresh_socket u]) w).

(** [this.pingInterval = setInterval(..., 30000)] *)
Definition setInterval_ping (w : World) : World :=
  bump_next_timer
    (set_pingInterval (Some (next_timer w))
       (upd_timers (insert (next_timer w) PingTimer) w)).

(** [this.reconnectTimeout = setTimeout(..., delay)] *)
Definition setTimeout_reconnect (delay : option Q) (w : World) : World :=
  bump_next_timer
    (set_reconnectTimeout (Some (next_timer w))
       (upd_timers (insert (next_timer w) (ReconnectTimer delay)) w)).

(** [clearInterval(h)] and [clearTimeout(h)] *)
Definition clearTimer (h : nat) : World -> World := upd_timers (delete h).

(** ** The methods of [WebSocketClient] *)

(** The constructor: defaults first, then the caller's options. *)
Definition constructor (o : ConnectionOptions) : Client :=
  {| ws := None;
     options :=
       {| token := token o;
          filters := filters o;
          reconnectAttempts :=
            match reconnectAttempts o with Some n => Some n | None => Some 5%Z end;
          reconnectDelay :=
            match reconnectDelay o with Some d => Some d | None => Some (5000 # 1) end |};
     reconnectCount := 0;
     pingInterval := None;
     reconnectTimeout := None;
     isConnecting := false;
     shouldReconnect := true |}.

(** [this.ws?.readyState] *)
Definition ws_readyState (w : World) : option ReadyState :=
  match ws (this w) with
  | Some t => sock_readyState <$> sockets w !! t
  | None => None
  end.

(** [this.ws?.readyState === WebSocket.OPEN] *)
Definition ws_is_open (w : World) : bool :=
  match ws_readyState w with
  | Some OPEN => true
  | _ => false
  end.

Definition send (message : Value) : Action := fun w =>
  if ws_is_open w then
    match ws (this w) with
    | Some t => modify (alter_socket (with_sent message) t) w
    | None => skip w
    end
  else emit "error" (ErrorObj "WebSocket is not connected") w.

Definition updateFilters (f : WebSocketFilters) : Action := fun w =>
  (modify (set_options (set_filters f (options (this w)))) >>>
   send (VObj [("type", VStr "subscribe"); ("filters", filters_value f)])) w.

Definition startPingInterval : Action := modify setInterval_ping.

Definition cleanup : Action :=
  (fun w =>
     match pingInterval (this w) with
     | Some h => (modify (clearTimer h) >>> modify (set_pingInterval None)) w
     | None => skip w
     end) >>>
  (fun w =>
     match reconnectTimeout (this w) with
     | Some h => (modify (clearTimer h) >>> modify (set_reconnectTimeout None)) w
     | None => skip w
     end).

(** Truth value of an optional number in a condition. *)
Definition truthy (n : option Z) : bool :=
  match n with
  | Some z => negb (z =? 0)%Z
  | None => false
  end.

(** [reconnectCount >= reconnectAttempts]; against [undefined] it is false. *)
Definition reached (count : Z) (cap : option Z) : bool :=
  match cap with
  | Some m => (m <=? count)%Z
  | None => false
  end.

(** *** Arithmetic on binary64 numbers

    A finite number is the rational it stands for; [None] is a result
    that is not finite ([NaN], or an infinity after overflow). *)

(** [2^c <= a / b] *)
Definition pow2_le (c : Z) (a b : positive) : bool :=
  if (0 <=? c)%Z then (2 ^ c * Zpos b <=? Zpos a)%Z
  else (Zpos b <=? Zpos a * 2 ^ (- c))%Z.

(** The integer part of the binary logarithm of [a / b]. *)
Definition floor_log2 (a b : positive) : Z :=
  let c := (Z.log2 (Zpos a) - Z.log2 (Zpos b))%Z in
  if pow2_le c a b then c else (c - 1)%Z.

(** [n / d] rounded to the nearest integer, a tie going to the even one. *)
Definition round_half_even (n d : Z) : Z :=
  let f := (n / d)%Z in
  let r := (n mod d)%Z in
  match (2 * r ?= d)%Z with
  | Lt => f
  | Gt => (f + 1)%Z
  | Eq => if Z.even f then f else (f + 1)%Z
  end.

(** The binary64 value nearest to [a / b]: 53 significant bits, the last
    of them worth no less than [2^-1074]; [None] when the rounded value
    reaches [2^1024]. *)
Definition nearest_pos (a b : positive) : option Q :=
  let e := Z.max (-1074) (floor_log2 a b - 52) in
  if (0 <=? e)%Z then
    let m := round_half_even (Zpos a) (Zpos b * 2 ^ e) in
    if (2 ^ 1024 <=? m * 2 ^ e)%Z then None else Some (m * 2 ^ e # 1)
  else
    let m := round_half_even (Zpos a * 2 ^ (- e)) (Zpos b) in
    Some (m # Z.to_pos (2 ^ (- e))).

Definition nearest (q : Q) : option Q :=
  match Qnum q with
  | Z0 => Some q
  | Zpos a => nearest_pos a (Qden q)
  | Zneg a => Qopp <$> nearest_pos a (Qden q)
  end.

(** Rounding to nearest, ties to even; a value that is a binary64 number
    already is returned as it is. *)
Definition double (q : Q) : option Q :=
  match nearest q with
  | Some r => if Qeq_bool r q then Some q else Some r
  | None => None
  end.

(** [Math.pow(1.5, y)] for an integer [y].  The language asks only for an
    approximation; the result is taken to be the nearest binary64 value,
    which is the exact power wherever that is a binary64 number. *)
Definition Math_pow_1_5 (y : Z) : option Q := double ((3 # 2) ^ y).

(** [a * b] *)
Definition times (a b : option Q) : option Q :=
  match a, b with
  | Some x, Some y => double (x * y)
  | _, _ => None
  end.

(** [reconnectDelay * Math.pow(1.5, count - 1)] *)
Definition backoff (base : option Q) (count : Z) : option Q :=
  times base (Math_pow_1_5 (count - 1)).

(** The callback handed to [setTimeout] calls [connect]; it is
    [reconnect_timer_fired] below. *)
Definition scheduleReconnect : Action := fun w =>
  let o := options (this w) in
  if negb (shouldReconnect (this w))
     || (truthy (reconnectAttempts o)
         && reached (reconnectCount (this w)) (reconnectAttempts o))
  then emit "reconnectFailed" NoArg w
  else
    let w := set_reconnectCount (reconnectCount (this w) + 1) w in
    let delay := backoff (reconnectDelay o) (reconnectCount (this w)) in
    (emit "reconnecting"
       (ReconnectInfo (reconnectCount (this w)) (reconnectAttempts o) delay) >>>
     modify (setTimeout_reconnect delay)) w.

Definition setupEventListeners : Action := fun w =>
  match ws (this w) with
  | None => skip w
  | Some t => modify (alter_socket with_handlers t) w
  end.

Definition baseUrl (w : World) : string :=
  match NEXT_PUBLIC_WS_URL w with
  | Some s => if String.eqb s "" then "ws://localhost:8000" else s
  | None => "ws://localhost:8000"
  end.

Definition wsUrl (w : World) : Url :=
  let o := options (this w) in
  {| url_prefix := String.append (baseUrl w) "/api/v1/ws/connect?";
     url_query :=
       ("token", PText (token o)) ::
       match filters o with
       | Some f => [("filters", PJson (filters_value f))]
       | None => []
       end |}.

(** The constructor of [WebSocket] either returns or throws; which one is
    the browser's choice and is an argument of every path that reaches it. *)
Definition connect (constructor_throws : bool) : Action := fun w =>
  if ws_is_open w || isConnecting (this w) then skip w
  else
    let w := set_isConnecting true w in
    if constructor_throws then
      (modify (set_isConnecting false) >>>
       emit "error" ConstructorException >>>
       scheduleReconnect) w
    else
      (modify (new_WebSocket (wsUrl w)) >>> setupEventListeners) w.

Definition disconnect : Action :=
  modify (set_shouldReconnect false) >>>
  cleanup >>>
  (fun w =>
     match ws (this w) with
     | Some t => modify (alter_socket (with_close 1000 "Client disconnect") t) w
     | None => skip w
     end).

(** *** The four socket callbacks *)

Definition onopen : Action :=
  modify (set_isConnecting false) >>>
  modify (set_reconnectCount 0) >>>
  emit "connected" NoArg >>>
  startPingInterval.

(** [type === label], the test of one [case] of the [switch]. *)
Definition is_case (label : string) (type : Value) : bool :=
  match type with
  | VStr s => String.eqb s label
  | _ => false
  end.

(** The [switch] of [handleMessage] on the value of [message.type]. *)
Definition dispatch (type : Value) (message : Value) : Action :=
  if is_case "ping" type then
    send (VObj [("type", VStr "pong");
                ("server_time", default VUndefined (get_prop message "server_time"))])
  else if is_case "pong" type then skip
  else if is_case "cost_update" type then emit "costUpdate" (Message message)
  else if is_case "waste_detected" type then emit "wasteDetected" (Message message)
  else if is_case "recommendation_ready" type then emit "recommendationReady" (Message message)
  else if is_case "job_status" type then emit "jobStatus" (Message message)
  else if is_case "account_status" type then emit "accountStatus" (Message message)
  else if is_case "error" type then emit "serverError" (Message message)
  else emit "message" (Message message).

(** [handleMessage]; [None] when reading [message.type] throws. *)
Definition handleMessage (message : Value) : option Action :=
  match get_prop message "type" with
  | None => None
  | Some type => Some (dispatch type message >>> emit "rawMessage" (Message message))
  end.

Definition parse_error : Action :=
  emit "error" (ErrorObj "Failed to parse WebSocket message").

(** [onmessage]: the [try] covers both [JSON.parse] and [handleMessage]. *)
Definition onmessage (data : ParseOutcome) : Action :=
  match data with
  | SyntaxError => parse_error
  | Parsed message =>
      match handleMessage message with
      | Some run => run
      | None => parse_error
      end
  end.

Definition onclose (code : Z) : Action :=
  modify (set_isConnecting false) >>>
  cleanup >>>
  (fun w =>
     if negb (code =? 1000)%Z then
       (emit "disconnected" (CloseEvent code) >>>
        (fun w => if shouldReconnect (this w) then scheduleReconnect w else skip w)) w
     else emit "disconnected" (CloseEvent code) w).

Definition onerror : Action :=
  modify (set_isConnecting false) >>> emit "error" TransportError.

(** *** The two timer callbacks *)

Definition ping_timer_fired (now : string) : Action := fun w =>
  if ws_is_open w
  then send (VObj [("type", VStr "ping"); ("client_time", VStr now)]) w
  else skip w.

Definition reconnect_timer_fired (constructor_throws : bool) : Action :=
  connect constructor_throws.

(** *** The getters *)

Definition readyState (w : World) : ReadyState := default CLOSED (ws_readyState w).

Definition isConnected (w : World) : bool := ws_is_open w.

Definition connectionState (w : World) : string :=
  match ws (this w) with
  | None => "disconnected"
  | Some t =>
      match sock_readyState <$> sockets w !! t with
      | Some CONNECTING => "connecting"
      | Some OPEN => "connected"
      | Some CLOSING => "closing"
      | Some CLOSED => "disconnected"
      | None => "unknown"
      end
  end.

(** ** The event loop

    What can happen to a channel: a call of its public interface, an
    event of one of the sockets it created, or one of its timers firing.
    The browser delivers [open] to a connecting socket, [message] to an
    open one and [close] to one that is not closed yet, changing the
    ready state before the callback runs; the [error] event of a failed
    connection comes right before its [close], which carries the change
    of ready state.  An event that cannot happen leaves the world as it
    is.  Events of a socket reach the channel whether or not the socket
    is the one in [this.ws]: the callbacks are closures over the channel. *)

Inductive Input : Type :=
| Call_connect (constructor_throws : bool)
| Call_disconnect
| Call_send (message : Value)
| Call_updateFilters (f : WebSocketFilters)
| SocketOpen (t : nat)
| SocketMessage (t : nat) (data : ParseOutcome)
| SocketClose (t : nat) (code : Z)
| SocketError (t : nat)
| PingTimerFires (h : nat) (now : string)
| ReconnectTimerFires (h : nat) (constructor_throws : bool).

(** Ready state of socket [t] if it exists and has its callbacks. *)
Definition listening (w : World) (t : nat) : option ReadyState :=
  match sockets w !! t with
  | Some s => if sock_handlers s then Some (sock_readyState s) else None
  | None => None
  end.

Definition step (i : Input) : Action := fun w =>
  match i with
  | Call_connect b => connect b w
  | Call_disconnect => disconnect w
  | Call_send m => send m w
  | Call_updateFilters f => updateFilters f w
  | SocketOpen t =>
      match listening w t with
      | Some CONNECTING => (modify (alter_socket (with_readyState OPEN) t) >>> onopen) w
      | _ => skip w
      end
  | SocketMessage t data =>
      match listening w t with
      | Some OPEN => onmessage data w
      | _ => skip w
      end
  | SocketClose t code =>
      match listening w t with
      | Some CLOSED | None => skip w
      | Some _ => (modify (alter_socket (with_readyState CLOSED) t) >>> onclose code) w
      end
  | SocketError t =>
      match listening w t with
      | Some _ => onerror w
      | None => skip w
      end
  | PingTimerFires h now =>
      match timers w !! h with
      | Some PingTimer => ping_timer_fired now w
      | _ => skip w
      end
  | ReconnectTimerFires h b =>
      match timers w !! h with
      | Some (ReconnectTimer _) => (modify (clearTimer h) >>> reconnect_timer_fired b) w
      | _ => skip w
      end
  end.

Fixpoint run (inputs : list Input) : Action :=
  match inputs with
  | [] => skip
  | i :: rest => step i >>> run rest
  end.

(** A page that has just built its channel. *)
Definition boot (env : option string) (o : ConnectionOptions) : World :=
  {| this := constructor o; sockets := []; timers := ∅; next_timer := 1;
     NEXT_PUBLIC_WS_URL := env |}.

(** Every frame handed to [send] of some socket, oldest socket first. *)
Definition frames_sent (w : World) : list (list Value) := sock_sent <$> sockets w.

(** The channels notified by a list of emissions. *)
Definition channels (out : list Emission) : list string := out.*1.

(** *** Vocabulary of the statements *)

(** The dedicated channel of each recognised type that is not a control
    type, as the [switch] pairs them. *)
Definition typed_channels : list (string * string) :=
  [("cost_update", "costUpdate");
   ("waste_detected", "wasteDetected");
   ("recommendation_ready", "recommendationReady");
   ("job_status", "jobStatus");
   ("account_status", "accountStatus");
   ("error", "serverError")].

Definition recognized_types : list string :=
  "ping" :: "pong" :: typed_channels.*1.

(** A frame the [try] block of [onmessage] gives up on: the text is not
    JSON, or it is JSON for [null], which has no [type] to read. *)
Definition fails_to_parse (data : ParseOutcome) : Prop :=
  match data with
  | SyntaxError => True
  | Parsed message => get_prop message "type" = None
  end.

Definition plain_options : ConnectionOptions :=
  {| token := "t0"; filters := None; reconnectAttempts := None; reconnectDelay := None |}.

(** A freshly built channel whose first connection has opened. *)
Definition first_open (env : option string) (o : ConnectionOptions) : World :=
  (run [Call_connect false; SocketOpen 0] (boot env o)).1.

(** The same with the default options and no environment variable. *)
Definition opened_world : World := first_open None plain_options.

Definition ping_frame : Value :=
  VObj [("type", VStr "ping"); ("timestamp", VStr "12:00:00"); ("server_time", VStr "12:00:01")].

Definition cost_frame : Value :=
  VObj [("type", VStr "cost_update"); ("timestamp", VStr "12:00:00"); ("account_id", VStr "a1")].

Definition some_filters : WebSocketFilters :=
  {| message_types := Some ["cost_update"; "job_status"]; account_ids := None |}.

Definition odelete (o : option nat) (m : gmap nat Timer) : gmap nat Timer :=
  match o with
  | Some h => delete h m
  | None => m
  end.

(** The world [cleanup] leaves behind. *)
Definition cleaned (w : World) : World :=
  set_reconnectTimeout None
    (set_pingInterval None
       (upd_timers (fun m => odelete (reconnectTimeout (this w)) (odelete (pingInterval (this w)) m)) w)).

(** The test at the head of [scheduleReconnect]. *)
Definition gives_up (w : World) : bool :=
  negb (shouldReconnect (this w))
  || (truthy (reconnectAttempts (options (this w)))
      && reached (reconnectCount (this w)) (reconnectAttempts (options (this w)))).

Definition next_delay (w : World) : option Q :=
  backoff (reconnectDelay (options (this w))) (reconnectCount (this w) + 1).

(** The world after [connect] has built a socket. *)
Definition connected_to (w : World) : World :=
  set_ws (Some (length (sockets w)))
    (upd_sockets (fun l => l ++ [with_handlers (fresh_socket (wsUrl w))])
       (set_isConnecting true w)).

Definition explicit_connect (i : Input) : bool :=
  match i with
  | Call_connect _ => true
  | _ => false
  end.

(** A reconnect timer fires and the socket constructor returns. *)
Definition timer_connects (i : Input) : bool :=
  match i with
  | ReconnectTimerFires _ false => true
  | _ => false
  end.

(** No reconnect timer is live. *)
Definition no_reconnect_pending (w : World) : Prop :=
  forall h d, timers w !! h <> Some (ReconnectTimer d).

(** Every live reconnect timer is the one [this.reconnectTimeout] holds. *)
Definition reconnect_timers_tracked (w : World) : Prop :=
  forall h d, timers w !! h = Some (ReconnectTimer d) -> reconnectTimeout (this w) = Some h.

(** From [w] to [w'] no socket was created, the owned socket is the same
    one and no socket went (back) to connecting. *)
Definition settles (w w' : World) : Prop :=
  length (sockets w') = length (sockets w)
  /\ ws (this w') = ws (this w)
  /\ forall t, sock_readyState <$> sockets w' !! t = Some CONNECTING ->
               sock_readyState <$> sockets w !! t = Some CONNECTING.

(** Inputs among which no explicit [connect] meets a throwing constructor. *)
Definition constructor_returns (i : Input) : bool :=
  match i with
  | Call_connect true => false
  | _ => true
  end.

(** A channel that lost its first connection and waits to reconnect. *)
Definition pending_world : World := (run [SocketClose 0 1006] opened_world).1.

(** A channel that was disconnected and connected again by hand: socket 0
    is still closing, socket 1 is the owned one and has opened. *)
Definition stale_world : World :=
  (run [Call_disconnect; Call_connect false; SocketOpen 1] opened_world).1.

(** The owned socket closes with [code]. *)
Definition abnormal_closure (code : Z) : Action := fun w =>
  match ws (this w) with
  | Some t => step (SocketClose t code) w
  | None => skip w
  end.

(** The pending reconnect timer fires and the constructor returns. *)
Definition backoff_elapses : Action := fun w =>
  match reconnectTimeout (this w) with
  | Some h => step (ReconnectTimerFires h false) w
  | None => skip w
  end.

(** One closure and one reconnect attempt per code, in a row. *)
Fixpoint failed_attempts (codes : list Z) : Action :=
  match codes with
  | [] => skip
  | code :: rest => abnormal_closure code >>> backoff_elapses >>> failed_attempts rest
  end.

Definition abnormal (code : Z) : Prop := code <> 1000%Z.

Definition all_closed (w : World) : Prop :=
  forall t s, sockets w !! t = Some s -> sock_readyState s = CLOSED.

(** The cap of [scheduleReconnect] lets attempt number [k + 1] through. *)
Definition within_cap (cap : option Z) (k : Z) : Prop :=
  truthy cap && reached k cap = false.

(** A channel with options [o] whose owned socket is connecting or open
    after [k] consecutive failures: every other socket is closed and the
    only timer that may be live is the tracked heartbeat. *)
Record attempting (o : ConnectionOptions) (k : Z) (w : World) : Prop := {
  att_options : options (this w) = o;
  att_count : reconnectCount (this w) = k;
  att_flag : shouldReconnect (this w) = true;
  att_socket : exists t s, ws (this w) = Some t /\ sockets w !! t = Some s
                           /\ sock_handlers s = true /\ sock_readyState s <> CLOSED;
  att_others : forall t s, sockets w !! t = Some s -> ws (this w) <> Some t ->
                           sock_readyState s = CLOSED;
  att_timers : forall h tm, timers w !! h = Some tm -> pingInterval (this w) = Some h
}.

(** A channel with options [o] that waits for reconnect attempt [k]: all
    sockets are closed and the only live timer is the tracked reconnect
    timer, armed with the delay of attempt [k]. *)
Record waiting (o : ConnectionOptions) (k : Z) (w : World) : Prop := {
  wait_options : options (this w) = o;
  wait_count : reconnectCount (this w) = k;
  wait_flag : shouldReconnect (this w) = true;
  wait_isConnecting : isConnecting (this w) = false;
  wait_ping : pingInterval (this w) = None;
  wait_sockets : all_closed w;
  wait_timer : exists h, reconnectTimeout (this w) = Some h
                         /\ timers w = {[ h := ReconnectTimer (backoff (reconnectDelay o) k) ]}
}.

(** A channel at rest: all sockets closed, no timer live. *)
Definition idle (w : World) : Prop := all_closed w /\ timers w = ∅.

(** The run of five closures on a channel with the default cap of five. *)
Definition five_closures : list Input :=
  [SocketClose 0 1006; ReconnectTimerFires 2 false;
   SocketClose 1 1006; ReconnectTimerFires 3 false;
   SocketClose 2 1006; ReconnectTimerFires 4 false;
   SocketClose 3 1006; ReconnectTimerFires 5 false;
   SocketClose 4 1006].

Definition uncapped_options : ConnectionOptions :=
  {| token := "t0"; filters := None; reconnectAttempts := Some 0%Z; reconnectDelay := None |}.

(** *** The steps a run is made of *)

(** One elementary change of the world, as the methods and the browser
    make them, each with the test that guards it in the code; [allowed]
    tells which frames may be handed to [send]. *)
Inductive elementary (allowed : Value -> Prop) (w : World) : World -> Prop :=
| el_isConnecting b : elementary allowed w (set_isConnecting b w)
| el_flag_off : elementary allowed w (set_shouldReconnect false w)
| el_count_reset : elementary allowed w (set_reconnectCount 0 w)
| el_cleanup : elementary allowed w (cleaned w)
| el_filters f : elementary allowed w (set_options (set_filters f (options (this w))) w)
| el_schedule (Hgo : gives_up w = false) :
    elementary allowed w (setTimeout_reconnect (next_delay w)
                            (set_reconnectCount (reconnectCount (this w) + 1) w))
| el_heartbeat : elementary allowed w (setInterval_ping w)
| el_timer_fired h d (Hlive : timers w !! h = Some (ReconnectTimer d)) :
    elementary allowed w (clearTimer h w)
| el_new_socket (Hopen : ws_is_open w = false) : elementary allowed w (connected_to w)
| el_send t m (Hframe : allowed m) (Hws : ws (this w) = Some t) (Hopen : ws_is_open w = true) :
    elementary allowed w (alter_socket (with_sent m) t w)
| el_opened t (Hl : listening w t = Some CONNECTING) :
    elementary allowed w (alter_socket (with_readyState OPEN) t w)
| el_closed t r (Hl : listening w t = Some r) (Hr : r <> CLOSED) :
    elementary allowed w (alter_socket (with_readyState CLOSED) t w)
| el_close_call t (Hws : ws (this w) = Some t) :
    elementary allowed w (alter_socket (with_close 1000 "Client disconnect") t w).

(** The frames the channel writes of its own accord. *)
Definition protocol_frame (m : Value) : Prop :=
  exists ty, get_prop m "type" = Some (VStr ty) /\ In ty ["ping"; "pong"; "subscribe"].

(** The frames a run may put on the wire: the channel's own, and the
    messages the caller passed to [send]. *)
Definition frames_of (inputs : list Input) (m : Value) : Prop :=
  protocol_frame m \/ In (Call_send m) inputs.

(** What the constructor fixes for good: everything in the options but
    the filters, and the environment. *)
Definition same_config (w w' : World) : Prop :=
  token (options (this w')) = token (options (this w))
  /\ reconnectAttempts (options (this w')) = reconnectAttempts (options (this w))
  /\ reconnectDelay (options (this w')) = reconnectDelay (options (this w))
  /\ NEXT_PUBLIC_WS_URL w' = NEXT_PUBLIC_WS_URL w.

(** The owned socket is the one created last, and every socket has its
    callbacks. *)
Definition owns_newest (w : World) : Prop :=
  ws (this w) = match length (sockets w) with 0 => None | S n => Some n end
  /\ Forall (fun s => sock_handlers s = true) (sockets w).

(** Every socket was built for the configured endpoint and token. *)
Definition urls_configured (w : World) : Prop :=
  forall t s, sockets w !! t = Some s ->
    url_prefix (sock_url s) = String.append (baseUrl w) "/api/v1/ws/connect?"
    /\ head (url_query (sock_url s)) = Some ("token", PText (token (options (this w)))).

(** The retry counter is not negative and, under a positive cap, not
    above the cap. *)
Definition count_in_budget (w : World) : Prop :=
  (0 <= reconnectCount (this w))%Z
  /\ forall m, reconnectAttempts (options (this w)) = Some m -> (0 < m)%Z ->
       (reconnectCount (this w) <= m)%Z.

(** No frame was handed to a socket that is still connecting. *)
Definition sent_after_open (w : World) : Prop :=
  forall t s, sockets w !! t = Some s -> sock_sent s <> [] ->
    sock_readyState s <> CONNECTING.

(** Every frame handed to a socket so far is an allowed one. *)
Definition only_sent (allowed : Value -> Prop) (w : World) : Prop :=
  forall t s m, sockets w !! t = Some s -> In m (sock_sent s) -> allowed m.

(** Inputs that can lead to [scheduleReconnect]: a close event, or a
    [connect] (by hand or by the timer) on which the constructor throws. *)
Definition may_schedule (i : Input) : bool :=
  match i with
  | SocketClose _ _ => true
  | Call_connect true => true
  | ReconnectTimerFires _ true => true
  | _ => false
  end.

(** *** The React hook [useWebSocket]

    The hook keeps two pieces of state and registers four listeners on
    the channel; each listener stores a constant or its argument. *)
Record HookState : Type := {
  hook_connectionState : string;
  hook_lastMessage : option Value
}.

Definition hook_initial : HookState :=
  {| hook_connectionState := "disconnected"; hook_lastMessage := None |}.

Definition setConnectionState (v : string) (h : HookState) : HookState :=
  {| hook_connectionState := v; hook_lastMessage := hook_lastMessage h |}.

Definition setLastMessage (m : Value) (h : HookState) : HookState :=
  {| hook_connectionState := hook_connectionState h; hook_lastMessage := Some m |}.

(** What the registered listeners do with one emitted event. *)
Definition hook_listeners (h : HookState) (e : Emission) : HookState :=
  let (channel, arg) := e in
  if String.eqb channel "connected" then setConnectionState "connected" h
  else if String.eqb channel "disconnected" then setConnectionState "disconnected" h
  else if String.eqb channel "reconnecting" then setConnectionState "reconnecting" h
  else if String.eqb channel "rawMessage" then
    match arg with
    | Message m => setLastMessage m h
    | _ => h
    end
  else h.

Definition hook_after (out : list Emission) (h : HookState) : HookState :=
  fold_left hook_listeners out h.

(** The [isConnected] the hook returns. *)
Definition hook_isConnected (h : HookState) : bool :=
  String.eqb (hook_connectionState h) "connected".

(** A run after which socket 1 has opened and started its heartbeat
    while socket 2, created by a later [connect], is still connecting. *)
Definition two_sockets_run : list Input :=
  [Call_connect false; SocketOpen 0; Call_disconnect; Call_connect false;
   SocketClose 0 1000; Call_connect false; SocketOpen 1].

(** The first connection opens and is lost; the first retry is under way. *)
Definition reconnect_once_run : list Input :=
  [Call_connect false; SocketOpen 0; SocketClose 0 1006; ReconnectTimerFires 2 false].

(** The first connection and the five retries of the default budget all
    fail; a stale timer handle and one more close event follow. *)
Definition seven_closures_run : list Input :=
  [Call_connect false; SocketOpen 0] ++ five_closures
  ++ [ReconnectTimerFires 6 false; SocketClose 5 1006; ReconnectTimerFires 6 false].

(** Calls and a timer that would write to the socket before it opens. *)
Definition early_sends_run : list Input :=
  [Call_connect false; Call_send ping_frame; Call_updateFilters some_filters;
   PingTimerFires 1 "12:00:30"].

(** A connection on which all four kinds of frame are written. *)
Definition busy_run : list Input :=
  [Call_connect false; SocketOpen 0; SocketMessage 0 (Parsed ping_frame);
   Call_updateFilters some_filters; Call_send cost_frame; PingTimerFires 1 "12:00:30"].



(** In the words of the spec (data model, inbound envelope shape): an
    envelope is an object whose [type] is a non-empty string. *)
Definition envelope_type (message : Value) : option string :=
  match message with
  | VObj props =>
      match assoc "type" props with
      | VStr s => if String.eqb s "" then None else Some s
      | _ => None
      end
  | _ => None
  end.

(** The frame parses to an envelope. *)
Definition parses_as_envelope (data : ParseOutcome) : bool :=
  match data with
  | SyntaxError => false
  | Parsed message =>
      match envelope_type message with
      | Some _ => true
      | None => false
      end
  end.

(** The first connection is lost, and an explicit [connect] meets a
    constructor that throws while the reconnect timer is pending. *)
Definition orphaning_run : list Input :=
  [Call_connect false; SocketOpen 0; SocketClose 0 1006; Call_connect true].

(** Two explicit [connect] calls on an endpoint the constructor rejects. *)
Definition rejected_endpoint_run : list Input :=
  [Call_connect true; Call_connect true].

(** ** Message routing *)

Lemma step_message_delivered w t data :
  listening w t = Some OPEN -> step (SocketMessage t data) w = onmessage data w.
Proof. intros H. unfold step. now rewrite H. Qed.

Lemma is_case_neq s label : s <> label -> is_case label (VStr s) = false.
Proof. intros H. now apply String.eqb_neq. Qed.

(** C7. A parsed envelope of a recognised type other than ping and pong
    notifies its dedicated channel and then the raw-message channel, and
    nothing else (not the generic message channel); an envelope whose
    type is not recognised notifies the generic message channel and then
    the raw-message channel.  The world is left as it was. *)
Theorem C7_typed_dispatch (w : World) (t : nat) (message : Value) (ty : string) :
  listening w t = Some OPEN ->
  get_prop message "type" = Some (VStr ty) ->
  (forall ch, In (ty, ch) typed_channels ->
     step (SocketMessage t (Parsed message)) w
     = (w, [(ch, Message message); ("rawMessage", Message message)]))
  /\ (~ In ty recognized_types ->
     step (SocketMessage t (Parsed message)) w
     = (w, [("message", Message message); ("rawMessage", Message message)])).
Proof.
  intros Hopen Hty. rewrite (step_message_delivered _ _ _ Hopen).
  unfold onmessage, handleMessage. rewrite Hty. split.
  - intros ch Hin. unfold typed_channels in Hin. simpl in Hin.
    repeat (destruct Hin as [Hin | Hin]; [inversion Hin; subst; reflexivity |]).
    contradiction.
  - intros Hnot. unfold recognized_types, typed_channels in Hnot. simpl in Hnot.
    unfold dispatch.
    rewrite !is_case_neq by (intros ->; apply Hnot; tauto).
    reflexivity.
Qed.

Lemma C7_typed_dispatch_witness :
  step (SocketMessage 0 (Parsed cost_frame)) opened_world
  = (opened_world, [("costUpdate", Message cost_frame); ("rawMessage", Message cost_frame)]).
Proof.
  refine (proj1 (C7_typed_dispatch opened_world 0 cost_frame "cost_update" _ _) "costUpdate" _).
  - reflexivity.
  - reflexivity.
  - simpl. tauto.
Defined.

(** C1, as the code has it.  A ping or pong envelope received on the
    owned, open socket notifies no typed channel and not the generic
    message channel; it is published once on the raw-message channel.  A
    ping is answered with exactly one pong frame on that socket, whose
    [server_time] is the [server_time] of the ping; a pong sends nothing. *)
Theorem C1_control_frames (w : World) (t : nat) (s : Socket) (message : Value) :
  ws (this w) = Some t ->
  sockets w !! t = Some s ->
  sock_handlers s = true ->
  sock_readyState s = OPEN ->
  (get_prop message "type" = Some (VStr "ping") ->
     let pong := VObj [("type", VStr "pong");
                       ("server_time", default VUndefined (get_prop message "server_time"))] in
     let r := step (SocketMessage t (Parsed message)) w in
     r.2 = [("rawMessage", Message message)]
     /\ r.1 = upd_sockets <[t := with_sent pong s]> w
     /\ frames_sent r.1 = <[t := sock_sent s ++ [pong]]> (frames_sent w))
  /\ (get_prop message "type" = Some (VStr "pong") ->
     step (SocketMessage t (Parsed message)) w = (w, [("rawMessage", Message message)])).
Proof.
  intros Hws Hs Hh Hopen.
  assert (Hl : listening w t = Some OPEN) by (unfold listening; now rewrite Hs, Hh, Hopen).
  assert (Ho : ws_is_open w = true)
    by (unfold ws_is_open, ws_readyState; now rewrite Hws, Hs; simpl; rewrite Hopen).
  rewrite (step_message_delivered _ _ _ Hl).
  unfold onmessage, handleMessage. split; intros ->.
  - unfold dispatch, seq, send; simpl. rewrite Ho, Hws; simpl.
    unfold alter_socket, upd_sockets; simpl. rewrite Hs.
    repeat split. unfold frames_sent; simpl. now rewrite list_fmap_insert.
  - reflexivity.
Qed.

Lemma C1_control_frames_witness :
  (step (SocketMessage 0 (Parsed ping_frame)) opened_world).2
  = [("rawMessage", Message ping_frame)]
  /\ frames_sent (step (SocketMessage 0 (Parsed ping_frame)) opened_world).1
     = [[VObj [("type", VStr "pong"); ("server_time", VStr "12:00:01")]]].
Proof.
  destruct (C1_control_frames opened_world 0
              (with_handlers (with_readyState OPEN
                 (fresh_socket (wsUrl (boot None plain_options)))))
              ping_frame eq_refl eq_refl eq_refl eq_refl) as [Hping _].
  destruct (Hping eq_refl) as (Hout & _ & Hsent).
  split; [exact Hout | exact Hsent].
Defined.

(** C1 as stated fails: the ping is published on the raw-message channel. *)
Lemma C1_counterexample :
  In "rawMessage" (channels (step (SocketMessage 0 (Parsed ping_frame)) opened_world).2).
Proof. vm_compute. tauto. Qed.

(** C6, as the code has it.  A delivered frame that does not parse to an
    envelope never changes the world (and so not the connection state),
    and what comes next is processed as if it had not arrived.  When
    [JSON.parse] fails or yields [null], exactly one event is emitted,
    the local parse error, and no subscriber sees the frame.  Any other
    JSON value without a usable [type] is not reported: it is published
    on the generic message channel and then on the raw-message channel,
    like an envelope of unrecognised type. *)
Theorem C6_parse_failure (w : World) (t : nat) (data : ParseOutcome) :
  listening w t = Some OPEN ->
  parses_as_envelope data = false ->
  let r := step (SocketMessage t data) w in
  r.1 = w
  /\ connectionState r.1 = connectionState w
  /\ (forall later, run later r.1 = run later w)
  /\ (fails_to_parse data ->
      r.2 = [("error", ErrorObj "Failed to parse WebSocket message")])
  /\ (forall message, data = Parsed message -> get_prop message "type" <> None ->
      r.2 = [("message", Message message); ("rawMessage", Message message)]).
Proof.
  intros Hl He r. subst r. rewrite (step_message_delivered _ _ _ Hl).
  assert (E : onmessage data w = (w, [("error", ErrorObj "Failed to parse WebSocket message")])
              \/ exists m, data = Parsed m /\ get_prop m "type" <> None
                           /\ onmessage data w
                              = (w, [("message", Message m); ("rawMessage", Message m)])).
  { destruct data as [|m]; [now left|].
    unfold onmessage, handleMessage.
    destruct (get_prop m "type") as [ty|] eqn:Ety; [|now left].
    right. exists m. split; [reflexivity|]. split; [congruence|].
    assert (Hty : ty = VStr "" \/ forall s, ty <> VStr s).
    { simpl in He. destruct m as [| |b|q|s0|xs|props]; simpl in Ety; try discriminate;
        inversion Ety; subst; try (right; intros s; discriminate).
      simpl in He. destruct (assoc "type" props) as [| |b|q|s|xs|ps];
        try (right; intros s'; discriminate).
      destruct (String.eqb s "") eqn:Es; [|discriminate].
      apply String.eqb_eq in Es. subst. now left. }
    unfold dispatch.
    destruct Hty as [-> | Hns]; [reflexivity|].
    destruct ty; try reflexivity. now destruct (Hns s). }
  destruct E as [E | (m & -> & Hm & E)]; rewrite E; cbn [fst snd].
  - repeat split; try reflexivity.
    intros message -> Hty. exfalso.
    unfold onmessage, handleMessage in E.
    destruct (get_prop message "type") as [ty|]; [|congruence].
    unfold seq, emit in E. destruct (dispatch ty message w) as [w1 o1].
    injection E as Hw Ho. destruct o1 as [|e [|e' o1]]; simpl in Ho; discriminate Ho.
  - repeat split; try reflexivity.
    + intros Hf. simpl in Hf. congruence.
    + intros message [= <-] _. reflexivity.
Qed.

Lemma C6_parse_failure_witness :
  listening opened_world 0 = Some OPEN
  /\ parses_as_envelope SyntaxError = false
  /\ (step (SocketMessage 0 SyntaxError) opened_world).2
     = [("error", ErrorObj "Failed to parse WebSocket message")]
  /\ (step (SocketMessage 0 SyntaxError) opened_world).1 = opened_world.
Proof.
  assert (Hl : listening opened_world 0 = Some OPEN) by (vm_compute; reflexivity).
  destruct (C6_parse_failure opened_world 0 SyntaxError Hl eq_refl) as (H1 & _ & _ & H4 & _).
  split; [exact Hl|]. split; [reflexivity|]. split; [exact (H4 I) | exact H1].
Defined.

(** C6 as stated fails: the frame [{}] does not parse to an envelope, yet
    no parse error is reported and the frame is delivered on the generic
    message channel and on the raw-message channel. *)
Lemma C6_counterexample :
  parses_as_envelope (Parsed (VObj [])) = false
  /\ step (SocketMessage 0 (Parsed (VObj []))) opened_world
     = (opened_world, [("message", Message (VObj [])); ("rawMessage", Message (VObj []))]).
Proof. vm_compute. split; reflexivity. Qed.

(** ** Filters *)

Lemma seq_1 (a b : Action) w : ((a >>> b) w).1 = (b (a w).1).1.
Proof. unfold seq. destruct (a w) as [w1 o1]. simpl. now destruct (b w1). Qed.

Lemma seq_2 (a b : Action) w : ((a >>> b) w).2 = (a w).2 ++ (b (a w).1).2.
Proof. unfold seq. destruct (a w) as [w1 o1]. simpl. now destruct (b w1). Qed.

Lemma frames_sent_alter_readyState r t w :
  frames_sent (alter_socket (with_readyState r) t w) = frames_sent w.
Proof.
  unfold frames_sent, alter_socket, upd_sockets. simpl.
  destruct (sockets w !! t) as [s|] eqn:E; [|reflexivity].
  rewrite list_fmap_insert. simpl. apply list_insert_id.
  now rewrite list_lookup_fmap, E.
Qed.

(** No frame is sent when a socket opens. *)
Lemma open_sends_nothing w t : frames_sent (step (SocketOpen t) w).1 = frames_sent w.
Proof.
  unfold step. destruct (listening w t) as [[| | |]|]; try reflexivity.
  exact (frames_sent_alter_readyState OPEN t w).
Qed.

Lemma alter_last (l : list Socket) (x : Socket) (f : Socket -> Socket) :
  match (l ++ [x]) !! length l with
  | Some s => <[length l := f s]> (l ++ [x])
  | None => l ++ [x]
  end = l ++ [f x].
Proof.
  rewrite list_lookup_middle by reflexivity.
  rewrite insert_app_r_alt by reflexivity. now rewrite Nat.sub_diag.
Qed.

(** What [connect] does on a channel that is neither open nor connecting,
    when the socket constructor returns. *)
Lemma connect_creates w :
  ws_is_open w = false ->
  isConnecting (this w) = false ->
  connect false w
  = (set_ws (Some (length (sockets w)))
       (upd_sockets (fun l => l ++ [with_handlers (fresh_socket (wsUrl w))])
          (set_isConnecting true w)), []).
Proof.
  intros Hopen Hcon. unfold connect. rewrite Hopen, Hcon. simpl.
  unfold seq, modify, setupEventListeners, new_WebSocket, alter_socket, upd_sockets. simpl.
  now rewrite alter_last.
Qed.

(** C2, as the code has it.  [updateFilters] on a channel that is not
    connected (and not connecting) sends no frame and emits the
    not-connected error; the stored filters become the new ones; the next
    [connect] opens a socket whose URL carries them as the [filters]
    parameter.  No socket open is followed by a frame: the filters are
    not announced again with a subscribe frame. *)
Theorem C2_update_filters_offline (w : World) (f : WebSocketFilters) :
  ws_is_open w = false ->
  isConnecting (this w) = false ->
  let r1 := updateFilters f w in
  let r2 := connect false r1.1 in
  let t := length (sockets w) in
  r1.2 = [("error", ErrorObj "WebSocket is not connected")]
  /\ sockets r1.1 = sockets w
  /\ filters (options (this r1.1)) = Some f
  /\ ws (this r2.1) = Some t
  /\ sock_url <$> sockets r2.1 !! t
     = Some {| url_prefix := String.append (baseUrl w) "/api/v1/ws/connect?";
               url_query := [("token", PText (token (options (this w))));
                             ("filters", PJson (filters_value f))] |}
  /\ frames_sent r2.1 = frames_sent w ++ [[]]
  /\ forall w' t', frames_sent (step (SocketOpen t') w').1 = frames_sent w'.
Proof.
  intros Hopen Hcon.
  assert (E1 : updateFilters f w
               = (set_options (set_filters f (options (this w))) w,
                  [("error", ErrorObj "WebSocket is not connected")])).
  { unfold updateFilters, seq, modify, send.
    replace (ws_is_open (set_options (set_filters f (options (this w))) w))
      with (ws_is_open w) by reflexivity.
    now rewrite Hopen. }
  simpl. rewrite E1. simpl.
  rewrite connect_creates by assumption. simpl.
  repeat split.
  - now rewrite list_lookup_middle.
  - unfold frames_sent. simpl. now rewrite fmap_app.
  - apply open_sends_nothing.
Qed.

Lemma C2_update_filters_offline_witness :
  (updateFilters some_filters (boot None plain_options)).2
  = [("error", ErrorObj "WebSocket is not connected")]
  /\ filters (options (this (updateFilters some_filters (boot None plain_options)).1))
     = Some some_filters.
Proof.
  destruct (C2_update_filters_offline (boot None plain_options) some_filters eq_refl eq_refl)
    as (H1 & _ & H3 & _).
  split; [exact H1 | exact H3].
Defined.

(** C2 as stated fails: the filters are replaced while offline, the
    channel then connects and opens, and no subscribe frame (no frame at
    all) has been sent. *)
Lemma C2_counterexample :
  let w := (run [Call_updateFilters some_filters; Call_connect false; SocketOpen 0]
              (boot None plain_options)).1 in
  isConnected w = true /\ frames_sent w = [[]].
Proof. vm_compute. split; reflexivity. Qed.

(** ** Closed forms of the lifecycle methods *)

Lemma cleanup_spec w : cleanup w = (cleaned w, []).
Proof.
  destruct w as [[t o n [p|] [r|] c b] socks tms nt env]; reflexivity.
Qed.

Lemma scheduleReconnect_stop w :
  gives_up w = true -> scheduleReconnect w = (w, [("reconnectFailed", NoArg)]).
Proof. unfold gives_up, scheduleReconnect. now intros ->. Qed.

Lemma scheduleReconnect_go w :
  gives_up w = false ->
  scheduleReconnect w
  = (setTimeout_reconnect (next_delay w) (set_reconnectCount (reconnectCount (this w) + 1) w),
     [("reconnecting",
       ReconnectInfo (reconnectCount (this w) + 1)
         (reconnectAttempts (options (this w))) (next_delay w))]).
Proof. unfold gives_up, scheduleReconnect. now intros ->. Qed.

Lemma onclose_spec code w :
  onclose code w =
  let w1 := cleaned (set_isConnecting false w) in
  if (code =? 1000)%Z then (w1, [("disconnected", CloseEvent code)])
  else if shouldReconnect (this w) then
    ((scheduleReconnect w1).1, ("disconnected", CloseEvent code) :: (scheduleReconnect w1).2)
  else (w1, [("disconnected", CloseEvent code)]).
Proof.
  unfold onclose, seq, modify. rewrite cleanup_spec. simpl.
  destruct (code =? 1000)%Z; simpl; [reflexivity|].
  unfold emit. destruct (shouldReconnect (this w)); simpl; [|reflexivity].
  now destruct (scheduleReconnect _).
Qed.

Lemma disconnect_spec w :
  disconnect w =
  (match ws (this w) with
   | Some t => alter_socket (with_close 1000 "Client disconnect") t
   | None => fun w => w
   end (cleaned (set_shouldReconnect false w)), []).
Proof.
  unfold disconnect, seq, modify. rewrite cleanup_spec. simpl.
  now destruct (ws (this w)).
Qed.

(** ** The no-auto-reconnect flag *)

Lemma odelete_lookup o (m : gmap nat Timer) h x : odelete o m !! h = Some x -> m !! h = Some x.
Proof.
  destruct o as [k|]; simpl; [|tauto]. rewrite lookup_delete_Some. tauto.
Qed.

Lemma cleaned_lookup w h x : timers (cleaned w) !! h = Some x -> timers w !! h = Some x.
Proof. simpl. intros H. now apply odelete_lookup in H; apply odelete_lookup in H. Qed.

(** [send] touches nothing but the socket it writes to. *)
Lemma send_keeps m w :
  this (send m w).1 = this w
  /\ timers (send m w).1 = timers w
  /\ next_timer (send m w).1 = next_timer w
  /\ ((send m w).2 = [] \/ (send m w).2 = [("error", ErrorObj "WebSocket is not connected")]).
Proof.
  unfold send. destruct (ws_is_open w); [destruct (ws (this w))|]; simpl; auto.
Qed.

Lemma onmessage_keeps data w :
  this (onmessage data w).1 = this w
  /\ timers (onmessage data w).1 = timers w
  /\ next_timer (onmessage data w).1 = next_timer w
  /\ ~ In "reconnecting" (channels (onmessage data w).2)
  /\ ~ In "reconnectFailed" (channels (onmessage data w).2).
Proof.
  unfold onmessage, handleMessage.
  destruct data as [|m]; [simpl; intuition discriminate|].
  destruct (get_prop m "type") as [ty|]; [|simpl; intuition discriminate].
  rewrite seq_1, seq_2. unfold dispatch.
  destruct (is_case "ping" ty).
  { destruct (send_keeps (VObj [("type", VStr "pong");
       ("server_time", default VUndefined (get_prop m "server_time"))]) w)
      as (H1 & H2 & H3 & [H4 | H4]); rewrite H4; simpl; intuition discriminate. }
  repeat (case_match; [simpl; intuition discriminate|]); simpl; intuition discriminate.
Qed.

Lemma connect_spec b w :
  connect b w =
  if ws_is_open w || isConnecting (this w) then (w, [])
  else if b then
    let r := scheduleReconnect (set_isConnecting false (set_isConnecting true w)) in
    (r.1, ("error", ConstructorException) :: r.2)
  else (connected_to w, []).
Proof.
  destruct (ws_is_open w || isConnecting (this w)) eqn:E.
  - unfold connect. now rewrite E.
  - destruct b.
    + unfold connect. rewrite E. unfold seq, modify, emit. simpl.
      now destruct (scheduleReconnect _).
    + apply orb_false_elim in E as [E1 E2]. now apply connect_creates.
Qed.

Lemma sticky_step i w :
  shouldReconnect (this w) = false ->
  shouldReconnect (this (step i w).1) = false
  /\ ~ In "reconnecting" (channels (step i w).2)
  /\ (forall h d, timers (step i w).1 !! h = Some (ReconnectTimer d) ->
                  timers w !! h = Some (ReconnectTimer d)).
Proof.
  intros Hs. destruct i as [b| |m|f|t|t data|t code|t|h now|h b]; unfold step.
  - rewrite connect_spec. destruct (ws_is_open w || isConnecting (this w)); [simpl; auto|].
    destruct b; [|simpl; auto].
    rewrite scheduleReconnect_stop by (unfold gives_up; simpl; now rewrite Hs).
    simpl. intuition discriminate.
  - rewrite disconnect_spec. simpl. split; [now destruct (ws (this w))|].
    split; [tauto|]. intros h d H. apply (cleaned_lookup (set_shouldReconnect false w)).
    now destruct (ws (this w)).
  - destruct (send_keeps m w) as (H1 & H2 & _ & [H4 | H4]); rewrite H1, H2, H4;
      simpl; intuition discriminate.
  - unfold updateFilters. rewrite seq_1, seq_2.
    match goal with |- context [send ?m ?w'] =>
      destruct (send_keeps m w') as (H1 & H2 & _ & [H4 | H4]); rewrite H1, H2, H4 end;
      simpl; intuition discriminate.
  - destruct (listening w t) as [[| | |]|]; simpl; auto.
    split; [assumption|]. split; [intuition discriminate|].
    intros h d H. apply lookup_insert_Some in H as [[_ H]|[_ H]]; [discriminate|assumption].
  - destruct (listening w t) as [[| | |]|]; simpl; auto.
    destruct (onmessage_keeps data w) as (H1 & H2 & _ & H4 & _). now rewrite H1, H2.
  - assert (G : let r := (modify (alter_socket (with_readyState CLOSED) t) >>> onclose code) w in
                shouldReconnect (this r.1) = false
                /\ ~ In "reconnecting" (channels r.2)
                /\ (forall h d, timers r.1 !! h = Some (ReconnectTimer d) ->
                                timers w !! h = Some (ReconnectTimer d))).
    { simpl. rewrite seq_1, seq_2. simpl. rewrite onclose_spec. simpl. rewrite Hs.
      destruct (code =? 1000)%Z; simpl; (split; [assumption|]);
        (split; [intuition discriminate|]); intros h d H;
        now apply odelete_lookup in H; apply odelete_lookup in H. }
    destruct (listening w t) as [[| | |]|]; simpl; auto.
  - destruct (listening w t) as [r|]; simpl; auto. intuition discriminate.
  - destruct (timers w !! h) as [[|d]|]; simpl; auto.
    unfold ping_timer_fired. destruct (ws_is_open w); [|simpl; auto].
    match goal with |- context [send ?m ?w'] =>
      destruct (send_keeps m w') as (H1 & H2 & _ & [H4 | H4]); rewrite H1, H2, H4 end;
      simpl; intuition discriminate.
  - destruct (timers w !! h) as [[|d]|] eqn:E; simpl; auto.
    rewrite seq_1, seq_2. simpl. unfold reconnect_timer_fired. rewrite connect_spec.
    assert (D : forall h' d', delete h (timers w) !! h' = Some (ReconnectTimer d') ->
                              timers w !! h' = Some (ReconnectTimer d'))
      by (intros h' d' H; apply lookup_delete_Some in H; tauto).
    match goal with |- context [if ?c then _ else _] => destruct c end; [simpl; auto|].
    destruct b; [|simpl; auto].
    rewrite scheduleReconnect_stop by (unfold gives_up; simpl; now rewrite Hs).
    simpl. intuition discriminate.
Qed.

Lemma run_1 i rest w : (run (i :: rest) w).1 = (run rest (step i w).1).1.
Proof. simpl. apply seq_1. Qed.

Lemma run_2 i rest w : (run (i :: rest) w).2 = (step i w).2 ++ (run rest (step i w).1).2.
Proof. simpl. apply seq_2. Qed.

Lemma channels_app (a b : list Emission) : channels (a ++ b) = channels a ++ channels b.
Proof. apply fmap_app. Qed.

Lemma sticky_run later w :
  shouldReconnect (this w) = false ->
  shouldReconnect (this (run later w).1) = false
  /\ ~ In "reconnecting" (channels (run later w).2)
  /\ (forall h d, timers (run later w).1 !! h = Some (ReconnectTimer d) ->
                  timers w !! h = Some (ReconnectTimer d)).
Proof.
  revert w. induction later as [|i rest IH]; intros w Hs.
  - simpl. auto.
  - rewrite run_1, run_2, channels_app.
    destruct (sticky_step i w Hs) as (H1 & H2 & H3).
    destruct (IH _ H1) as (G1 & G2 & G3).
    split; [assumption|]. split; [rewrite in_app_iff; tauto|].
    intros h d H. auto.
Qed.

(** C9. [disconnect] clears the flag [shouldReconnect] and nothing sets
    it again: whatever happens later (explicit [connect] calls and
    successful opens included), the flag is still cleared, no
    [reconnecting] event is emitted, and a closure of any socket with any
    code arms no reconnect timer. *)
Theorem C9_flag_is_sticky (w : World) (later : list Input) (t : nat) (code : Z) :
  let w0 := (disconnect w).1 in
  let r1 := run later w0 in
  let r2 := step (SocketClose t code) r1.1 in
  shouldReconnect (this w0) = false
  /\ shouldReconnect (this r1.1) = false
  /\ ~ In "reconnecting" (channels r1.2)
  /\ shouldReconnect (this r2.1) = false
  /\ ~ In "reconnecting" (channels r2.2)
  /\ (forall h d, timers r2.1 !! h = Some (ReconnectTimer d) ->
                  timers w0 !! h = Some (ReconnectTimer d)).
Proof.
  intros w0 r1 r2.
  assert (H0 : shouldReconnect (this w0) = false).
  { subst w0. rewrite disconnect_spec. simpl. now destruct (ws (this w)). }
  destruct (sticky_run later w0 H0) as (H1 & H2 & H3).
  destruct (sticky_step (SocketClose t code) r1.1 H1) as (G1 & G2 & G3).
  repeat split; try assumption. intros h d H. auto.
Qed.

Lemma C9_flag_is_sticky_witness :
  let r1 := run [SocketClose 0 1000; Call_connect false; SocketOpen 1]
              (disconnect opened_world).1 in
  isConnected r1.1 = true
  /\ shouldReconnect (this r1.1) = false
  /\ ~ In "reconnecting" (channels (step (SocketClose 1 1006) r1.1).2).
Proof.
  destruct (C9_flag_is_sticky opened_world
              [SocketClose 0 1000; Call_connect false; SocketOpen 1] 1 1006)
    as (_ & H2 & _ & _ & H5 & _).
  split; [reflexivity|]. split; [exact H2 | exact H5].
Defined.

(** The same run, computed: after a disconnect the channel is connected
    again by hand and opens, then loses the connection; only
    [disconnected] is emitted and no timer is left. *)
Example reconnect_by_hand_trace :
  let w := (run [Call_disconnect; SocketClose 0 1000; Call_connect false; SocketOpen 1]
              opened_world).1 in
  isConnected w = true
  /\ (step (SocketClose 1 1006) w).2 = [("disconnected", CloseEvent 1006)]
  /\ timers (step (SocketClose 1 1006) w).1 = ∅.
Proof. vm_compute. repeat split. Qed.

(** ** Cancellation *)

Lemma settles_refl w : settles w w.
Proof. repeat split; auto. Qed.

Lemma settles_trans w1 w2 w3 : settles w1 w2 -> settles w2 w3 -> settles w1 w3.
Proof.
  intros (A1 & A2 & A3) (B1 & B2 & B3). repeat split; try congruence. auto.
Qed.

Lemma settles_same w w' :
  sockets w' = sockets w -> ws (this w') = ws (this w) -> settles w w'.
Proof. intros H1 H2. unfold settles. rewrite H1, H2. auto. Qed.

Lemma alter_socket_lookup f t w t' :
  sockets (alter_socket f t w) !! t'
  = if decide (t = t') then f <$> sockets w !! t' else sockets w !! t'.
Proof.
  unfold alter_socket, upd_sockets. simpl.
  destruct (decide (t = t')) as [<-|Hne].
  - destruct (sockets w !! t) as [s|] eqn:E; simpl; [|now rewrite E].
    apply list_lookup_insert_eq. now apply lookup_lt_Some in E.
  - destruct (sockets w !! t) as [s|] eqn:E; [|reflexivity].
    now apply list_lookup_insert_ne.
Qed.

Lemma alter_socket_length f t w : length (sockets (alter_socket f t w)) = length (sockets w).
Proof.
  unfold alter_socket, upd_sockets. simpl.
  destruct (sockets w !! t); [apply length_insert | reflexivity].
Qed.

Lemma settles_alter f t w :
  (forall s, sock_readyState (f s) = CONNECTING -> sock_readyState s = CONNECTING) ->
  settles w (alter_socket f t w).
Proof.
  intros Hf. split; [apply alter_socket_length|]. split; [reflexivity|].
  intros t'. rewrite alter_socket_lookup. destruct (decide (t = t')); [|tauto].
  destruct (sockets w !! t') as [s|]; simpl; [|discriminate].
  intros [= H]. f_equal. auto.
Qed.

Lemma send_world m w :
  (send m w).1 = w \/ exists t, (send m w).1 = alter_socket (with_sent m) t w.
Proof.
  unfold send. destruct (ws_is_open w); [destruct (ws (this w))|]; simpl; eauto.
Qed.

Lemma settles_send m w : settles w (send m w).1.
Proof.
  destruct (send_world m w) as [-> | [t ->]]; [apply settles_refl|].
  now apply settles_alter.
Qed.

Lemma onmessage_world data w :
  (onmessage data w).1 = w \/ exists m t, (onmessage data w).1 = alter_socket (with_sent m) t w.
Proof.
  unfold onmessage, handleMessage.
  destruct data as [|m]; [now left|].
  destruct (get_prop m "type") as [ty|]; [|now left].
  rewrite seq_1. simpl. unfold dispatch.
  destruct (is_case "ping" ty).
  { match goal with |- context [send ?m ?w'] =>
      destruct (send_world m w') as [-> | [t ->]] end; eauto. }
  repeat (case_match; [now left|]). now left.
Qed.

Lemma settles_onmessage data w : settles w (onmessage data w).1.
Proof.
  destruct (onmessage_world data w) as [-> | (m & t & ->)]; [apply settles_refl|].
  now apply settles_alter.
Qed.

(** Without an explicit [connect], and either without a live reconnect
    timer or with the flag cleared and a constructor that throws, a step
    creates no socket and sends no socket back to connecting. *)
Lemma quiet_step i w :
  explicit_connect i = false ->
  no_reconnect_pending w
  \/ (timer_connects i = false /\ shouldReconnect (this w) = false) ->
  settles w (step i w).1.
Proof.
  intros Hi Hn. destruct i as [b| |m|f|t|t data|t code|t|h now|h b]; unfold step;
    try discriminate.
  - rewrite disconnect_spec. simpl. destruct (ws (this w)) as [t|].
    + eapply settles_trans; [|apply settles_alter].
      * now apply settles_same.
      * intros s. simpl. now destruct (sock_readyState s).
    + now apply settles_same.
  - apply settles_send.
  - unfold updateFilters. rewrite seq_1. simpl.
    eapply settles_trans; [|apply settles_send]. now apply settles_same.
  - destruct (listening w t) as [[| | |]|]; simpl; try apply settles_refl.
    eapply settles_trans; [apply (settles_alter (with_readyState OPEN) t); discriminate|].
    now apply settles_same.
  - destruct (listening w t) as [[| | |]|]; simpl; try apply settles_refl.
    apply settles_onmessage.
  - assert (G : settles w ((modify (alter_socket (with_readyState CLOSED) t) >>> onclose code) w).1).
    { rewrite seq_1. simpl. rewrite onclose_spec.
      eapply settles_trans; [apply (settles_alter (with_readyState CLOSED) t); discriminate|].
      simpl. destruct (code =? 1000)%Z; simpl; [now apply settles_same|].
      destruct (shouldReconnect (this w)); simpl; [|now apply settles_same].
      unfold scheduleReconnect.
      match goal with |- context [if ?c then _ else _] => destruct c end;
        simpl; now apply settles_same. }
    destruct (listening w t) as [[| | |]|]; simpl; try apply settles_refl; exact G.
  - destruct (listening w t) as [r|]; simpl; [|apply settles_refl]. now apply settles_same.
  - destruct (timers w !! h) as [[|d]|]; simpl; try apply settles_refl.
    unfold ping_timer_fired. destruct (ws_is_open w); [apply settles_send|apply settles_refl].
  - destruct (timers w !! h) as [[|d]|] eqn:E; simpl; try apply settles_refl.
    destruct Hn as [Hn | [Hb Hs]]; [now apply Hn in E|].
    destruct b; [|discriminate].
    rewrite seq_1. simpl. unfold reconnect_timer_fired. rewrite connect_spec.
    match goal with |- context [if ?c then _ else _] => destruct c end;
      [now apply settles_same|].
    rewrite scheduleReconnect_stop by (unfold gives_up; simpl; now rewrite Hs).
    now apply settles_same.
Qed.

Lemma cleaned_untracked w :
  reconnect_timers_tracked w -> no_reconnect_pending (cleaned w).
Proof.
  intros Ht h d H. simpl in H.
  assert (H' := H). apply odelete_lookup in H'. apply odelete_lookup in H'.
  apply Ht in H'. rewrite H' in H. simpl in H. now rewrite lookup_delete_eq in H.
Qed.

Lemma untracked_tracked w : no_reconnect_pending w -> reconnect_timers_tracked w.
Proof. intros Hn h d H. now apply Hn in H. Qed.

(** [scheduleReconnect] keeps the timers tracked when none was pending. *)
Lemma scheduleReconnect_tracked w :
  no_reconnect_pending w -> reconnect_timers_tracked (scheduleReconnect w).1.
Proof.
  intros Hn. unfold scheduleReconnect.
  match goal with |- context [if ?c then _ else _] => destruct c end; simpl.
  - now apply untracked_tracked.
  - intros h d H. simpl in H. apply lookup_insert_Some in H as [[<- _]|[_ H]]; [reflexivity|].
    now apply Hn in H.
Qed.

(** The timers stay tracked along every step but an explicit [connect]
    on which the socket constructor throws. *)
Lemma tracked_step i w :
  i <> Call_connect true ->
  reconnect_timers_tracked w ->
  reconnect_timers_tracked (step i w).1.
Proof.
  intros Hi Ht. destruct i as [b| |m|f|t|t data|t code|t|h now|h b]; unfold step.
  - destruct b; [congruence|]. rewrite connect_spec.
    now match goal with |- context [if ?c then _ else _] => destruct c end.
  - rewrite disconnect_spec. simpl. apply untracked_tracked.
    assert (G := cleaned_untracked (set_shouldReconnect false w) Ht).
    now destruct (ws (this w)).
  - destruct (send_world m w) as [-> | [t ->]]; assumption.
  - unfold updateFilters. rewrite seq_1. simpl.
    match goal with |- context [send ?m ?w'] =>
      destruct (send_world m w') as [-> | [t ->]] end; assumption.
  - destruct (listening w t) as [[| | |]|]; simpl; try assumption.
    intros h d H. simpl in H.
    apply lookup_insert_Some in H as [[_ H]|[_ H]]; [discriminate|]. now apply Ht in H.
  - destruct (listening w t) as [[| | |]|]; simpl; try assumption.
    destruct (onmessage_world data w) as [-> | (m & t' & ->)]; assumption.
  - assert (G : reconnect_timers_tracked
                  ((modify (alter_socket (with_readyState CLOSED) t) >>> onclose code) w).1).
    { rewrite seq_1. simpl. rewrite onclose_spec.
      set (w0 := alter_socket (with_readyState CLOSED) t w).
      assert (Hc : no_reconnect_pending (cleaned (set_isConnecting false w0)))
        by now apply cleaned_untracked.
      cbv zeta.
      destruct (code =? 1000)%Z; [now apply untracked_tracked|].
      destruct (shouldReconnect (this w0)); [|now apply untracked_tracked].
      now apply scheduleReconnect_tracked. }
    destruct (listening w t) as [[| | |]|]; simpl; try assumption; exact G.
  - destruct (listening w t) as [r|]; simpl; assumption.
  - destruct (timers w !! h) as [[|d]|]; simpl; try assumption.
    unfold ping_timer_fired. destruct (ws_is_open w); [|assumption].
    match goal with |- context [send ?m ?w'] =>
      destruct (send_world m w') as [-> | [t ->]] end; assumption.
  - destruct (timers w !! h) as [[|d]|] eqn:E; simpl; try assumption.
    rewrite seq_1. simpl. unfold reconnect_timer_fired. rewrite connect_spec.
    assert (Hn : no_reconnect_pending (clearTimer h w)).
    { intros h' d' H. simpl in H. apply lookup_delete_Some in H as [Hne H].
      apply Ht in H. apply Ht in E. congruence. }
    match goal with |- context [if ?c then _ else _] => destruct c end;
      [now apply untracked_tracked|].
    destruct b; [|now apply untracked_tracked].
    now apply scheduleReconnect_tracked.
Qed.

Lemma tracked_run inputs w :
  forallb constructor_returns inputs = true ->
  reconnect_timers_tracked w ->
  reconnect_timers_tracked (run inputs w).1.
Proof.
  revert w. induction inputs as [|i rest IH]; intros w Hall Ht; [exact Ht|].
  simpl in Hall. apply andb_true_iff in Hall as [Hi Hall].
  rewrite run_1. apply IH; [assumption|]. apply tracked_step; [|assumption].
  intros ->. discriminate.
Qed.

Lemma tracked_boot env o inputs :
  forallb constructor_returns inputs = true ->
  reconnect_timers_tracked (run inputs (boot env o)).1.
Proof.
  intros Hall. apply tracked_run; [assumption|]. intros h d H. simpl in H.
  now rewrite lookup_empty in H.
Qed.

Lemma quiet_run later w :
  forallb (fun i => negb (explicit_connect i)) later = true ->
  shouldReconnect (this w) = false ->
  no_reconnect_pending w ->
  no_reconnect_pending (run later w).1 /\ settles w (run later w).1.
Proof.
  revert w. induction later as [|i rest IH]; intros w Hall Hs Hn.
  - split; [exact Hn | apply settles_refl].
  - simpl in Hall. apply andb_true_iff in Hall as [Hi Hall].
    apply negb_true_iff in Hi. rewrite run_1.
    destruct (sticky_step i w Hs) as (H1 & _ & H3).
    assert (Hn' : no_reconnect_pending (step i w).1)
      by (intros h d H; apply H3 in H; now apply Hn in H).
    destruct (IH _ Hall H1 Hn') as [G1 G2]. split; [assumption|].
    eapply settles_trans; [|exact G2]. apply quiet_step; [assumption | now left].
Qed.

Lemma quiet_run_throwing later w :
  forallb (fun i => negb (explicit_connect i) && negb (timer_connects i)) later = true ->
  shouldReconnect (this w) = false ->
  settles w (run later w).1.
Proof.
  revert w. induction later as [|i rest IH]; intros w Hall Hs; [apply settles_refl|].
  simpl in Hall. apply andb_true_iff in Hall as [Hi Hall].
  apply andb_true_iff in Hi as [Hi1 Hi2].
  apply negb_true_iff in Hi1. apply negb_true_iff in Hi2. rewrite run_1.
  destruct (sticky_step i w Hs) as (H1 & _ & _).
  eapply settles_trans; [|exact (IH _ Hall H1)].
  apply quiet_step; [assumption | now right].
Qed.

Lemma settles_not_connecting w w' :
  settles w w' ->
  ws_readyState w <> Some CONNECTING ->
  connectionState w' <> "connecting".
Proof.
  intros (_ & G3 & G4) Hw. unfold connectionState. rewrite G3.
  unfold ws_readyState in Hw.
  destruct (ws (this w)) as [t|]; [|intros ?; discriminate].
  specialize (G4 t).
  destruct (sock_readyState <$> sockets w' !! t) as [[| | |]|];
    try (intros ?; discriminate).
  now specialize (G4 eq_refl).
Qed.

Lemma disconnect_not_connecting w : ws_readyState (disconnect w).1 <> Some CONNECTING.
Proof.
  rewrite disconnect_spec. cbn [fst]. unfold ws_readyState.
  destruct (ws (this w)) as [t|] eqn:Et.
  - change (ws (this (alter_socket (with_close 1000 "Client disconnect") t
                        (cleaned (set_shouldReconnect false w))))) with (ws (this w)).
    rewrite Et, alter_socket_lookup, decide_True by reflexivity.
    destruct (sockets _ !! t) as [s|]; simpl; [|discriminate].
    now destruct (sock_readyState s).
  - change (ws (this (cleaned (set_shouldReconnect false w)))) with (ws (this w)).
    now rewrite Et.
Qed.

(** What [disconnect] does in every world: it emits nothing, clears the
    flag [shouldReconnect], empties both timer handles and cancels the
    timers they named, and calls [close(1000)] on the owned socket.  When
    every live reconnect timer is the tracked one, nothing that happens
    afterwards short of an explicit [connect] creates a socket, brings a
    reconnect timer to life or shows the channel as connecting.  The
    same holds, tracked or not, for what comes afterwards when the socket
    constructor throws each time a timer reaches it. *)
Lemma disconnect_cancels_tracked (w : World) :
  let w' := (disconnect w).1 in
  (disconnect w).2 = []
  /\ shouldReconnect (this w') = false
  /\ pingInterval (this w') = None
  /\ reconnectTimeout (this w') = None
  /\ (forall h, pingInterval (this w) = Some h -> timers w' !! h = None)
  /\ (forall h, reconnectTimeout (this w) = Some h -> timers w' !! h = None)
  /\ (forall t s, ws (this w) = Some t -> sockets w !! t = Some s ->
        sockets w' !! t = Some (with_close 1000 "Client disconnect" s))
  /\ (reconnect_timers_tracked w ->
      forall later, forallb (fun i => negb (explicit_connect i)) later = true ->
        let w'' := (run later w').1 in
        no_reconnect_pending w''
        /\ length (sockets w'') = length (sockets w')
        /\ ws (this w'') = ws (this w')
        /\ connectionState w'' <> "connecting")
  /\ (forall later,
        forallb (fun i => negb (explicit_connect i) && negb (timer_connects i)) later = true ->
        let w'' := (run later w').1 in
        length (sockets w'') = length (sockets w')
        /\ ws (this w'') = ws (this w')
        /\ connectionState w'' <> "connecting").
Proof.
  intros w'. assert (Hnc := disconnect_not_connecting w). fold w' in Hnc.
  revert Hnc. subst w'. rewrite disconnect_spec. cbn [fst snd].
  set (c := cleaned (set_shouldReconnect false w)).
  set (f := match ws (this w) with
            | Some t => alter_socket (with_close 1000 "Client disconnect") t
            | None => fun x => x
            end).
  assert (Hf : this (f c) = this c /\ timers (f c) = timers c)
    by (subst f; destruct (ws (this w)); split; reflexivity).
  destruct Hf as [Hf1 Hf2]. intros Hnc.
  assert (Hs : shouldReconnect (this (f c)) = false) by now rewrite Hf1.
  split; [reflexivity|]. split; [exact Hs|].
  split; [now rewrite Hf1|]. split; [now rewrite Hf1|].
  split.
  { intros h Hh. rewrite Hf2. subst c. simpl. rewrite Hh. simpl.
    destruct (reconnectTimeout (this w)) as [k|]; simpl.
    - rewrite lookup_delete. case_decide; [reflexivity|]. apply lookup_delete_eq.
    - apply lookup_delete_eq. }
  split.
  { intros h Hh. rewrite Hf2. subst c. simpl. rewrite Hh. simpl. apply lookup_delete_eq. }
  split.
  { intros t s Ht Hsk. subst f. rewrite Ht. rewrite alter_socket_lookup.
    rewrite decide_True by reflexivity. subst c. simpl. now rewrite Hsk. }
  split.
  - intros Htr later Hall.
    assert (Hn : no_reconnect_pending (f c)).
    { intros h d H. rewrite Hf2 in H. revert H.
      now apply (cleaned_untracked (set_shouldReconnect false w)). }
    destruct (quiet_run later (f c) Hall Hs Hn) as (G1 & G2).
    cbv zeta. split; [assumption|]. split; [apply G2|]. split; [apply G2|].
    now apply (settles_not_connecting (f c)).
  - intros later Hall.
    assert (G2 := quiet_run_throwing later (f c) Hall Hs).
    cbv zeta. split; [apply G2|]. split; [apply G2|].
    now apply (settles_not_connecting (f c)).
Qed.

Lemma disconnect_cancels_tracked_example :
  reconnect_timers_tracked pending_world
  /\ timers pending_world !! 2 = Some (ReconnectTimer (Some (5000 # 1)))
  /\ let w' := (disconnect pending_world).1 in
     let w'' := (run [ReconnectTimerFires 2 false; PingTimerFires 1 "12:00:30"] w').1 in
     timers w' !! 2 = None
     /\ length (sockets w'') = length (sockets w')
     /\ connectionState w'' <> "connecting".
Proof.
  assert (Ht : reconnect_timers_tracked pending_world).
  { unfold pending_world, opened_world. apply tracked_run; [reflexivity|].
    apply tracked_boot. reflexivity. }
  split; [exact Ht|]. split; [reflexivity|].
  destruct (disconnect_cancels_tracked pending_world) as (_ & _ & _ & _ & _ & H6 & _ & H8 & _).
  specialize (H6 2 eq_refl).
  specialize (H8 Ht [ReconnectTimerFires 2 false; PingTimerFires 1 "12:00:30"] eq_refl).
  destruct H8 as (_ & G2 & _ & G4).
  split; [exact H6|]. split; [exact G2 | exact G4].
Defined.

(** C5.  The claim fails on the code.  [scheduleReconnect] stores the new
    timer handle without clearing the one it replaces, and [connect]'s
    catch calls it without the [cleanup] that [onclose] runs first.  So
    an explicit [connect] on which the constructor throws, made while a
    reconnect is pending, leaves the pending timer 2 live and out of
    reach: [disconnect] cancels timer 3 only, timer 2 fires afterwards
    and the channel goes to connecting with a new socket.  On an endpoint
    the constructor always rejects, the orphaned timer 1 fires after
    [disconnect] all the same and the channel emits [error] and
    [reconnectFailed]. *)
Theorem C5_orphaned_reconnect_timer :
  let w := (run orphaning_run (boot None plain_options)).1 in
  let w' := (disconnect w).1 in
  let late := step (ReconnectTimerFires 2 false) w' in
  let v := (run rejected_endpoint_run (boot None plain_options)).1 in
  let v' := (disconnect v).1 in
  (timers w !! 2 = Some (ReconnectTimer (Some (5000 # 1)))
   /\ reconnectTimeout (this w) = Some 3
   /\ shouldReconnect (this w') = false
   /\ reconnectTimeout (this w') = None
   /\ timers w' !! 2 = Some (ReconnectTimer (Some (5000 # 1)))
   /\ connectionState w' = "disconnected"
   /\ connectionState late.1 = "connecting"
   /\ length (sockets late.1) = S (length (sockets w')))
  /\ (reconnectTimeout (this v') = None
      /\ timers v' !! 1 = Some (ReconnectTimer (Some (5000 # 1)))
      /\ (step (ReconnectTimerFires 1 true) v').2
         = [("error", ConstructorException); ("reconnectFailed", NoArg)]).
Proof. vm_compute. repeat split. Qed.

(** ** Stale sockets *)

(** C8, as the code has it.  The callbacks never look at which socket
    emitted the event.  A close event of a socket that is not the owned
    one runs [onclose] all the same: it resets [isConnecting], empties
    the heartbeat handle and cancels that timer, and emits
    [disconnected]. *)
Theorem C8_late_close (w : World) (t : nat) (r : ReadyState) (code : Z) :
  ws (this w) <> Some t ->
  listening w t = Some r ->
  r <> CLOSED ->
  let res := step (SocketClose t code) w in
  isConnecting (this res.1) = false
  /\ pingInterval (this res.1) = None
  /\ (forall h, pingInterval (this w) = Some h -> timers res.1 !! h <> Some PingTimer)
  /\ exists rest, res.2 = ("disconnected", CloseEvent code) :: rest.
Proof.
  intros _ Hl Hr res.
  assert (E : res = (modify (alter_socket (with_readyState CLOSED) t) >>> onclose code) w).
  { subst res. unfold step. rewrite Hl. now destruct r. }
  rewrite E, seq_1, seq_2. simpl. rewrite onclose_spec. clear E res.
  set (w0 := alter_socket (with_readyState CLOSED) t w).
  set (c := cleaned (set_isConnecting false w0)).
  assert (Hc : forall h, pingInterval (this w) = Some h -> timers c !! h = None).
  { intros h Hh. subst c w0. simpl. rewrite Hh. simpl.
    destruct (reconnectTimeout (this w)) as [k|]; simpl.
    - rewrite lookup_delete. case_decide; [reflexivity|]. apply lookup_delete_eq.
    - apply lookup_delete_eq. }
  cbv zeta.
  destruct (code =? 1000)%Z; [|destruct (shouldReconnect (this w0))]; cbn [fst snd].
  - split; [reflexivity|]. split; [reflexivity|]. split; [|eauto].
    intros h Hh. now rewrite (Hc h Hh).
  - destruct (gives_up c) eqn:G.
    + rewrite scheduleReconnect_stop by assumption. cbn [fst snd].
      split; [reflexivity|]. split; [reflexivity|]. split; [|eauto].
      intros h Hh. now rewrite (Hc h Hh).
    + rewrite scheduleReconnect_go by assumption. cbn [fst snd].
      split; [reflexivity|]. split; [reflexivity|]. split; [|eauto].
      intros h Hh. change (<[next_timer c := ReconnectTimer (next_delay c)]> (timers c) !! h
                           <> Some PingTimer).
      rewrite lookup_insert. case_decide; [discriminate|]. now rewrite (Hc h Hh).
  - split; [reflexivity|]. split; [reflexivity|]. split; [|eauto].
    intros h Hh. now rewrite (Hc h Hh).
Qed.

Lemma C8_late_close_witness :
  let res := step (SocketClose 0 1000) stale_world in
  isConnecting (this res.1) = false
  /\ pingInterval (this res.1) = None
  /\ timers res.1 !! 2 <> Some PingTimer.
Proof.
  destruct (C8_late_close stale_world 0 CLOSING 1000) as (H1 & H2 & H3 & _).
  - discriminate.
  - reflexivity.
  - discriminate.
  - split; [exact H1|]. split; [exact H2|]. exact (H3 2 eq_refl).
Defined.

(** C8 as stated fails: the close event of the discarded socket 0 arrives
    while socket 1 is owned and open; it stops the heartbeat of the live
    connection and tells the listeners the channel is disconnected. *)
Lemma C8_counterexample :
  ws (this stale_world) = Some 1
  /\ isConnected stale_world = true
  /\ pingInterval (this stale_world) = Some 2
  /\ timers stale_world !! 2 = Some PingTimer
  /\ let res := step (SocketClose 0 1000) stale_world in
     res.2 = [("disconnected", CloseEvent 1000)]
     /\ pingInterval (this res.1) = None
     /\ timers res.1 !! 2 = None
     /\ isConnected res.1 = true.
Proof. vm_compute. repeat split. Qed.

(** ** Reconnection *)

Lemma cleaned_timers_empty w :
  (forall h tm, timers w !! h = Some tm -> pingInterval (this w) = Some h) ->
  timers (cleaned w) = ∅.
Proof.
  intros Ht. apply map_eq. intros h. rewrite lookup_empty.
  destruct (timers (cleaned w) !! h) as [tm|] eqn:E; [|reflexivity]. exfalso.
  simpl in E. apply odelete_lookup in E.
  assert (E' := E). apply odelete_lookup in E'. apply Ht in E'.
  rewrite E' in E. simpl in E. now rewrite lookup_delete_eq in E.
Qed.

Lemma all_closed_not_open w : all_closed w -> ws_is_open w = false.
Proof.
  intros Hc. unfold ws_is_open, ws_readyState.
  destruct (ws (this w)) as [t|]; [|reflexivity].
  destruct (sockets w !! t) as [s|] eqn:E; [|reflexivity].
  simpl. now rewrite (Hc t s E).
Qed.

(** The closure of the owned socket, seen from [attempting]. *)
Lemma closure_unfolds o k w code :
  attempting o k w ->
  exists t, ws (this w) = Some t /\
    let c := cleaned (set_isConnecting false (alter_socket (with_readyState CLOSED) t w)) in
    timers c = ∅ /\ all_closed c /\
    abnormal_closure code w =
      if (code =? 1000)%Z then (c, [("disconnected", CloseEvent code)])
      else ((scheduleReconnect c).1, ("disconnected", CloseEvent code) :: (scheduleReconnect c).2).
Proof.
  intros [Ho Hk Hf (t & s & Hws & Hs & Hh & Hr) Hoth Htm].
  exists t. split; [assumption|]. cbv zeta.
  split; [now apply cleaned_timers_empty|]. split.
  - intros t' s' H'. change (sockets (alter_socket (with_readyState CLOSED) t w) !! t' = Some s') in H'.
    rewrite alter_socket_lookup in H'. destruct (decide (t = t')) as [<-|Hne].
    + rewrite Hs in H'. simpl in H'. now inversion H'.
    + apply (Hoth t' s' H'). congruence.
  - unfold abnormal_closure. rewrite Hws. unfold step, listening. rewrite Hs, Hh.
    assert (E : (modify (alter_socket (with_readyState CLOSED) t) >>> onclose code) w
                = onclose code (alter_socket (with_readyState CLOSED) t w)).
    { unfold seq, modify. now destruct (onclose code _). }
    destruct (sock_readyState s) eqn:Er; try congruence; rewrite E, onclose_spec; cbv zeta;
      destruct (code =? 1000)%Z; try reflexivity;
      change (shouldReconnect (this (alter_socket (with_readyState CLOSED) t w)))
        with (shouldReconnect (this w)); now rewrite Hf.
Qed.

Lemma closure_go o k w code :
  attempting o k w ->
  abnormal code ->
  within_cap (reconnectAttempts o) k ->
  (abnormal_closure code w).2
  = [("disconnected", CloseEvent code);
     ("reconnecting",
      ReconnectInfo (k + 1) (reconnectAttempts o) (backoff (reconnectDelay o) (k + 1)))]
  /\ waiting o (k + 1) (abnormal_closure code w).1.
Proof.
  intros Ha Hcode Hcap.
  destruct (closure_unfolds o k w code Ha) as (t & Hws & Hte & Hcl & E).
  destruct Ha as [Ho Hk Hf _ _ _].
  apply Z.eqb_neq in Hcode. rewrite Hcode in E. rewrite E. clear E.
  set (c := cleaned (set_isConnecting false (alter_socket (with_readyState CLOSED) t w))) in *.
  assert (G : gives_up c = false).
  { unfold gives_up. change (this c) with (this (cleaned (set_isConnecting false w))).
    simpl. rewrite Hf, Ho, Hk. exact Hcap. }
  rewrite (scheduleReconnect_go c G). cbn [fst snd].
  assert (Hd : next_delay c = backoff (reconnectDelay o) (k + 1)).
  { unfold next_delay. change (this c) with (this (cleaned (set_isConnecting false w))).
    simpl. now rewrite Ho, Hk. }
  assert (Hc : reconnectCount (this c) = k) by exact Hk.
  assert (Hoc : options (this c) = o) by exact Ho.
  rewrite Hd, Hc, Hoc. split; [reflexivity|].
  constructor; try assumption; try reflexivity.
  exists (next_timer c). split; [reflexivity|].
  change (<[next_timer c := ReconnectTimer (backoff (reconnectDelay o) (k + 1))]> (timers c)
          = {[next_timer c := ReconnectTimer (backoff (reconnectDelay o) (k + 1))]}).
  now rewrite Hte, insert_empty.
Qed.

Lemma closure_stop o k w code :
  attempting o k w ->
  abnormal code ->
  ~ within_cap (reconnectAttempts o) k ->
  (abnormal_closure code w).2
  = [("disconnected", CloseEvent code); ("reconnectFailed", NoArg)]
  /\ idle (abnormal_closure code w).1
  /\ reconnectTimeout (this (abnormal_closure code w).1) = None
  /\ reconnectCount (this (abnormal_closure code w).1) = k
  /\ shouldReconnect (this (abnormal_closure code w).1) = true.
Proof.
  intros Ha Hcode Hcap.
  destruct (closure_unfolds o k w code Ha) as (t & Hws & Hte & Hcl & E).
  destruct Ha as [Ho Hk Hf _ _ _].
  apply Z.eqb_neq in Hcode. rewrite Hcode in E. rewrite E. clear E.
  set (c := cleaned (set_isConnecting false (alter_socket (with_readyState CLOSED) t w))) in *.
  assert (G : gives_up c = true).
  { unfold gives_up. change (this c) with (this (cleaned (set_isConnecting false w))).
    simpl. rewrite Hf, Ho, Hk. simpl. unfold within_cap in Hcap.
    now destruct (truthy (reconnectAttempts o) && reached k (reconnectAttempts o)). }
  rewrite (scheduleReconnect_stop c G). cbn [fst snd].
  repeat split; assumption.
Qed.

Lemma elapse o k w :
  waiting o k w ->
  (backoff_elapses w).2 = [] /\ attempting o k (backoff_elapses w).1.
Proof.
  intros [Ho Hk Hf Hcon Hp Hcl (h & Hh & Ht)].
  unfold backoff_elapses. rewrite Hh. unfold step. rewrite Ht, lookup_singleton_eq.
  assert (E : (modify (clearTimer h) >>> reconnect_timer_fired false) w
              = connect false (clearTimer h w)).
  { unfold seq, modify, reconnect_timer_fired. now destruct (connect false _). }
  rewrite E, connect_creates; [|now apply all_closed_not_open|assumption].
  cbn [fst snd]. split; [reflexivity|].
  constructor; try assumption.
  - exists (length (sockets w)), (with_handlers (fresh_socket (wsUrl (clearTimer h w)))).
    split; [reflexivity|]. split; [|split; [reflexivity|discriminate]].
    simpl. now apply list_lookup_middle.
  - intros t s Hs Hne. simpl in Hs, Hne.
    apply lookup_app_Some in Hs as [Hs | [Hlen Hs]]; [now apply (Hcl t s)|].
    destruct (t - length (sockets w)) as [|n] eqn:En; [|now destruct n].
    exfalso. apply Hne. f_equal. lia.
  - intros h' tm H. simpl in H. rewrite Ht, delete_singleton_eq in H. now rewrite lookup_empty in H.
Qed.

(** [n] failed attempts in a row, all let through by the cap. *)
Lemma attempts_go o codes : forall k w,
  attempting o k w ->
  Forall abnormal codes ->
  (forall j, (k <= j < k + Z.of_nat (length codes))%Z -> within_cap (reconnectAttempts o) j) ->
  attempting o (k + Z.of_nat (length codes)) (failed_attempts codes w).1
  /\ ~ In "reconnectFailed" (channels (failed_attempts codes w).2)
  /\ count_occ String.string_dec (channels (failed_attempts codes w).2) "reconnecting" = length codes.
Proof.
  induction codes as [|code rest IH]; intros k w Ha Hab Hcap.
  - simpl. rewrite Z.add_0_r. auto.
  - apply Forall_cons in Hab as [Hc Hab].
    destruct (closure_go o k w code Ha Hc) as [E1 Hw].
    { apply Hcap. simpl length. lia. }
    destruct (elapse o (k + 1) _ Hw) as [E2 Ha'].
    destruct (IH (k + 1)%Z _ Ha' Hab) as (G1 & G2 & G3).
    { intros j Hj. apply Hcap. simpl length. lia. }
    cbn [failed_attempts]. repeat (rewrite seq_1 || rewrite seq_2). rewrite E1, E2.
    replace (k + Z.of_nat (length (code :: rest)))%Z
      with (k + 1 + Z.of_nat (length rest))%Z by (simpl length; lia).
    split; [exact G1|]. rewrite !channels_app, app_nil_r. split.
    + rewrite in_app_iff. intros [H | H]; [|tauto].
      simpl in H. destruct H as [H | [H | H]]; try discriminate; contradiction.
    + rewrite count_occ_app, G3. reflexivity.
Qed.

Lemma all_closed_listening w t :
  all_closed w -> listening w t = Some CLOSED \/ listening w t = None.
Proof.
  intros Hc. unfold listening. destruct (sockets w !! t) as [s|] eqn:E; [|now right].
  destruct (sock_handlers s); [|now right]. left. now rewrite (Hc t s E).
Qed.

Lemma all_closed_alter_close t w :
  all_closed w -> all_closed (alter_socket (with_close 1000 "Client disconnect") t w).
Proof.
  intros Hc t' s' H. rewrite alter_socket_lookup in H.
  destruct (decide (t = t')); [|now apply (Hc t' s')].
  destruct (sockets w !! t') as [s|] eqn:E; [|discriminate].
  simpl in H. inversion H. simpl. now rewrite (Hc t' s E).
Qed.

(** At rest nothing but an explicit [connect] wakes the channel up. *)
Lemma idle_step i w :
  explicit_connect i = false ->
  idle w ->
  idle (step i w).1
  /\ length (sockets (step i w).1) = length (sockets w)
  /\ ~ In "reconnecting" (channels (step i w).2).
Proof.
  intros Hi [Hc Ht].
  assert (Hopen := all_closed_not_open w Hc).
  destruct i as [b| |m|f|t|t data|t code|t|h now|h b]; unfold step; try discriminate.
  - rewrite disconnect_spec. cbn [fst snd].
    set (c := cleaned (set_shouldReconnect false w)).
    assert (Hcc : all_closed c) by exact Hc.
    assert (Htc : timers c = ∅).
    { apply cleaned_timers_empty. intros h tm H. simpl in H. now rewrite Ht, lookup_empty in H. }
    destruct (ws (this w)) as [t|].
    + split; [split; [exact (all_closed_alter_close t c Hcc) | exact Htc]|].
      split; [exact (alter_socket_length _ t c) | tauto].
    + repeat split; try assumption. tauto.
  - unfold send. rewrite Hopen. simpl. repeat split; try assumption. intuition discriminate.
  - unfold updateFilters, seq, modify, send.
    change (ws_is_open (set_options (set_filters f (options (this w))) w)) with (ws_is_open w).
    rewrite Hopen. simpl. repeat split; try assumption. intuition discriminate.
  - destruct (all_closed_listening w t Hc) as [-> | ->]; simpl; repeat split; auto.
  - destruct (all_closed_listening w t Hc) as [-> | ->]; simpl; repeat split; auto.
  - destruct (all_closed_listening w t Hc) as [-> | ->]; simpl; repeat split; auto.
  - destruct (all_closed_listening w t Hc) as [-> | ->]; simpl; repeat split; auto.
    intuition discriminate.
  - rewrite Ht, lookup_empty. simpl. repeat split; auto.
  - rewrite Ht, lookup_empty. simpl. repeat split; auto.
Qed.

Lemma idle_run later w :
  forallb (fun i => negb (explicit_connect i)) later = true ->
  idle w ->
  idle (run later w).1
  /\ length (sockets (run later w).1) = length (sockets w)
  /\ ~ In "reconnecting" (channels (run later w).2).
Proof.
  revert w. induction later as [|i rest IH]; intros w Hall Hi.
  - simpl. auto.
  - simpl in Hall. apply andb_true_iff in Hall as [H1 Hall]. apply negb_true_iff in H1.
    destruct (idle_step i w H1 Hi) as (G1 & G2 & G3).
    destruct (IH _ Hall G1) as (K1 & K2 & K3).
    rewrite run_1, run_2, channels_app, in_app_iff. split; [assumption|].
    split; [congruence | tauto].
Qed.

Lemma first_open_attempting env o : attempting (options (constructor o)) 0 (first_open env o).
Proof.
  constructor; try reflexivity.
  - eexists 0, _. split; [reflexivity|]. split; [reflexivity|]. split; [reflexivity|discriminate].
  - intros [|t] s Hs Hne; [now contradiction Hne|]. discriminate.
  - intros h tm H. change (<[1 := PingTimer]> (∅ : gmap nat Timer) !! h = Some tm) in H.
    apply lookup_insert_Some in H as [[<- _]|[_ H]]; [reflexivity|].
    now rewrite lookup_empty in H.
Qed.

Lemma waiting_timer o k w :
  waiting o k w ->
  exists h, reconnectTimeout (this w) = Some h
            /\ timers w !! h = Some (ReconnectTimer (backoff (reconnectDelay o) k)).
Proof.
  intros [_ _ _ _ _ _ (h & Hh & Ht)]. exists h. split; [assumption|].
  rewrite Ht. apply lookup_singleton_eq.
Qed.

Lemma within_cap_below m k : (k < m)%Z -> within_cap (Some m) k.
Proof.
  intros H. unfold within_cap, reached. apply andb_false_iff. right. now apply Z.leb_gt.
Qed.

Lemma within_cap_zero k : within_cap (Some 0%Z) k.
Proof. reflexivity. Qed.




(** C4, as the code has it.  With retry cap [m > 0], each of the first
    [m] consecutive abnormal closures since the last open schedules a
    reconnect attempt and none emits [reconnectFailed]; the counter then
    stands at [m].  The closure after that, the [(m+1)]-th, emits
    [reconnectFailed] and leaves the channel at rest: all sockets closed
    and no timer live.  From there nothing short of an explicit [connect]
    creates a socket, arms a timer or emits [reconnecting].  Every open
    of a socket sets the counter to zero. *)
Theorem C4_retry_budget (o : ConnectionOptions) (w : World) (m : Z)
    (codes : list Z) (code : Z) :
  attempting o 0 w ->
  reconnectAttempts o = Some m ->
  (0 < m)%Z ->
  Z.of_nat (length codes) = m ->
  Forall abnormal codes ->
  abnormal code ->
  let r1 := failed_attempts codes w in
  let r2 := abnormal_closure code r1.1 in
  ~ In "reconnectFailed" (channels r1.2)
  /\ count_occ String.string_dec (channels r1.2) "reconnecting" = length codes
  /\ reconnectCount (this r1.1) = m
  /\ r2.2 = [("disconnected", CloseEvent code); ("reconnectFailed", NoArg)]
  /\ idle r2.1
  /\ reconnectTimeout (this r2.1) = None
  /\ (forall later, forallb (fun i => negb (explicit_connect i)) later = true ->
        let r3 := run later r2.1 in
        idle r3.1
        /\ length (sockets r3.1) = length (sockets r2.1)
        /\ ~ In "reconnecting" (channels r3.2))
  /\ (forall w' t, listening w' t = Some CONNECTING ->
        reconnectCount (this (step (SocketOpen t) w').1) = 0%Z).
Proof.
  intros Ha Hm Hpos Hlen Hab Hc r1 r2.
  destruct (attempts_go o codes 0 w Ha Hab) as (Ha' & G2 & G3).
  { intros j Hj. rewrite Hm. apply within_cap_below. lia. }
  replace (0 + Z.of_nat (length codes))%Z with m in Ha' by lia.
  destruct (closure_stop o m _ code Ha' Hc) as (E & Hidle & Hto & _).
  { rewrite Hm. unfold within_cap. simpl. rewrite Z.leb_refl.
    replace (m =? 0)%Z with false by (symmetry; apply Z.eqb_neq; lia). discriminate. }
  split; [exact G2|]. split; [exact G3|]. split; [apply Ha'|].
  split; [exact E|]. split; [exact Hidle|]. split; [exact Hto|]. split.
  - intros later Hall. now apply idle_run.
  - intros w' t Hl. unfold step. rewrite Hl. reflexivity.
Qed.

Lemma C4_retry_budget_witness :
  let r1 := failed_attempts [1006; 1006; 1006; 1006; 1006]%Z opened_world in
  ~ In "reconnectFailed" (channels r1.2)
  /\ (abnormal_closure 1006 r1.1).2
     = [("disconnected", CloseEvent 1006); ("reconnectFailed", NoArg)].
Proof.
  assert (Hab : Forall abnormal [1006; 1006; 1006; 1006; 1006]%Z)
    by (repeat constructor; discriminate).
  assert (Hc : abnormal 1006) by discriminate.
  destruct (C4_retry_budget (options (constructor plain_options)) opened_world 5
              [1006; 1006; 1006; 1006; 1006]%Z 1006
              (first_open_attempting None plain_options) eq_refl eq_refl eq_refl Hab Hc)
    as (H1 & _ & _ & H4 & _).
  split; [exact H1 | exact H4].
Defined.

(** C4 as stated fails: after exactly five abnormal closures on a channel
    with the default cap of five, no [reconnectFailed] has been emitted
    and the fifth reconnect attempt is scheduled. *)
Lemma C4_counterexample :
  let r := run five_closures opened_world in
  reconnectAttempts (options (this opened_world)) = Some 5%Z
  /\ count_occ String.string_dec (channels r.2) "disconnected" = 5
  /\ ~ In "reconnectFailed" (channels r.2)
  /\ reconnectTimeout (this r.1) = Some 6
  /\ timers r.1 !! 6 = Some (ReconnectTimer (Some (405000 # 16))).
Proof.
  vm_compute. repeat split. intros H.
  repeat (destruct H as [H | H]; [discriminate|]). exact H.
Qed.

(** C10.  A cap of zero given to the constructor is kept as zero, and with
    it [scheduleReconnect] never gives up on account of the counter: the
    test at its head is false whatever the counter, as long as the flag
    [shouldReconnect] is set.  So any number of closures in a row each
    schedule a further attempt and none emits [reconnectFailed]. *)
Theorem C10_zero_cap (o : ConnectionOptions) (w : World) (k : Z)
    (codes : list Z) (code : Z) :
  attempting o k w ->
  reconnectAttempts o = Some 0%Z ->
  Forall abnormal codes ->
  abnormal code ->
  let r1 := failed_attempts codes w in
  let r2 := abnormal_closure code r1.1 in
  let n := (k + Z.of_nat (length codes) + 1)%Z in
  (~ In "reconnectFailed" (channels (r1.2 ++ r2.2))
   /\ count_occ String.string_dec (channels r1.2) "reconnecting" = length codes
   /\ r2.2 = [("disconnected", CloseEvent code);
              ("reconnecting", ReconnectInfo n (Some 0%Z) (backoff (reconnectDelay o) n))]
   /\ reconnectCount (this r2.1) = n
   /\ exists h, reconnectTimeout (this r2.1) = Some h
                /\ timers r2.1 !! h = Some (ReconnectTimer (backoff (reconnectDelay o) n)))
  /\ (forall o0, reconnectAttempts o0 = Some 0%Z ->
        reconnectAttempts (options (constructor o0)) = Some 0%Z)
  /\ (forall w', reconnectAttempts (options (this w')) = Some 0%Z ->
        shouldReconnect (this w') = true ->
        gives_up w' = false
        /\ ~ In "reconnectFailed" (channels (scheduleReconnect w').2)).
Proof.
  intros Ha H0 Hab Hc r1 r2 n. split; [|split].
  - destruct (attempts_go o codes k w Ha Hab) as (Ha' & G2 & G3).
    { intros j _. rewrite H0. apply within_cap_zero. }
    destruct (closure_go o _ _ code Ha' Hc) as [E Hw].
    { rewrite H0. apply within_cap_zero. }
    fold r1 in Ha', G2, G3, E, Hw. fold r2 in E, Hw. fold n in E, Hw.
    rewrite H0 in E. split.
    + rewrite channels_app, in_app_iff, E. intros [H | H]; [tauto|].
      simpl in H. destruct H as [H | [H | H]]; try discriminate; contradiction.
    + split; [exact G3|]. split; [exact E|]. split; [apply Hw|].
      now apply waiting_timer.
  - intros o0 H. simpl. now rewrite H.
  - intros w' H Hf.
    assert (G : gives_up w' = false) by (unfold gives_up; now rewrite H, Hf).
    split; [exact G|]. rewrite (scheduleReconnect_go w' G). simpl. intuition discriminate.
Qed.

Lemma C10_zero_cap_witness :
  let r1 := failed_attempts [1006; 1006; 1006; 1006; 1006; 1006; 1006]%Z
              (first_open None uncapped_options) in
  ~ In "reconnectFailed" (channels (r1.2 ++ (abnormal_closure 1006 r1.1).2))
  /\ reconnectCount (this (abnormal_closure 1006 r1.1).1) = 8%Z.
Proof.
  assert (Hab : Forall abnormal [1006; 1006; 1006; 1006; 1006; 1006; 1006]%Z)
    by (repeat constructor; discriminate).
  assert (Hc : abnormal 1006) by discriminate.
  destruct (C10_zero_cap (options (constructor uncapped_options))
              (first_open None uncapped_options) 0
              [1006; 1006; 1006; 1006; 1006; 1006; 1006]%Z 1006
              (first_open_attempting None uncapped_options) eq_refl Hab Hc)
    as ((H1 & _ & _ & H4 & _) & _).
  split; [exact H1 | exact H4].
Defined.

(** ** Runs as chains of elementary changes *)

Lemma protocol_ping now : protocol_frame (VObj [("type", VStr "ping"); ("client_time", VStr now)]).
Proof. exists "ping". split; [reflexivity | simpl; tauto]. Qed.

Lemma protocol_pong v : protocol_frame (VObj [("type", VStr "pong"); ("server_time", v)]).
Proof. exists "pong". split; [reflexivity | simpl; tauto]. Qed.

Lemma protocol_subscribe v : protocol_frame (VObj [("type", VStr "subscribe"); ("filters", v)]).
Proof. exists "subscribe". split; [reflexivity | simpl; tauto]. Qed.

Lemma elementary_mono (a b : Value -> Prop) w w' :
  (forall m, a m -> b m) -> elementary a w w' -> elementary b w w'.
Proof. intros Hab Hel. destruct Hel; eauto using elementary. Qed.

Lemma rtc_elementary_mono (a b : Value -> Prop) w w' :
  (forall m, a m -> b m) -> rtc (elementary a) w w' -> rtc (elementary b) w w'.
Proof.
  intros Hab H. induction H as [|x y z Hxy Hyz IH]; [apply rtc_refl|].
  eapply rtc_l; [|exact IH]. now apply (elementary_mono a b).
Qed.

Section Chains.
Variable allowed : Value -> Prop.

Lemma scheduleReconnect_elementary w : rtc (elementary allowed) w (scheduleReconnect w).1.
Proof.
  destruct (gives_up w) eqn:G.
  - rewrite scheduleReconnect_stop by assumption. apply rtc_refl.
  - rewrite scheduleReconnect_go by assumption. apply rtc_once. now apply el_schedule.
Qed.

Lemma send_elementary m w : allowed m -> rtc (elementary allowed) w (send m w).1.
Proof.
  intros Hm. unfold send. destruct (ws_is_open w) eqn:Ho; [|apply rtc_refl].
  destruct (ws (this w)) as [t|] eqn:Et; [|apply rtc_refl].
  apply rtc_once. now apply el_send.
Qed.

Lemma connect_elementary b w : rtc (elementary allowed) w (connect b w).1.
Proof.
  rewrite connect_spec. destruct (ws_is_open w || isConnecting (this w)) eqn:E;
    [apply rtc_refl|].
  apply orb_false_elim in E as [Ho Hc]. destruct b; cbn [fst].
  - eapply rtc_l; [apply (el_isConnecting allowed w true)|].
    eapply rtc_l; [apply (el_isConnecting allowed _ false)|].
    apply scheduleReconnect_elementary.
  - apply rtc_once. now apply el_new_socket.
Qed.

Hypothesis allows_protocol : forall m, protocol_frame m -> allowed m.

Lemma onmessage_elementary data w : rtc (elementary allowed) w (onmessage data w).1.
Proof.
  unfold onmessage, handleMessage.
  destruct data as [|m]; [apply rtc_refl|].
  destruct (get_prop m "type") as [ty|]; [|apply rtc_refl].
  rewrite seq_1. cbn [emit fst]. unfold dispatch.
  destruct (is_case "ping" ty); [apply send_elementary, allows_protocol, protocol_pong|].
  repeat (case_match; [apply rtc_refl|]). apply rtc_refl.
Qed.

Lemma onclose_elementary code w : rtc (elementary allowed) w (onclose code w).1.
Proof.
  rewrite onclose_spec. cbv zeta.
  assert (P : rtc (elementary allowed) w (cleaned (set_isConnecting false w))).
  { eapply rtc_l; [apply (el_isConnecting allowed w false)|]. apply rtc_once, el_cleanup. }
  destruct (code =? 1000)%Z; [exact P|].
  destruct (shouldReconnect (this w)); [|exact P].
  cbn [fst]. eapply rtc_trans; [exact P|]. apply scheduleReconnect_elementary.
Qed.

(** Every step of the event loop is a chain of elementary changes. *)
Lemma step_elementary i w :
  (forall m, i = Call_send m -> allowed m) ->
  rtc (elementary allowed) w (step i w).1.
Proof.
  intros Hsend.
  destruct i as [b| |m|f|t|t data|t code|t|h now|h b]; unfold step.
  - apply connect_elementary.
  - rewrite disconnect_spec. cbn [fst].
    eapply rtc_l; [apply el_flag_off|]. eapply rtc_l; [apply el_cleanup|].
    destruct (ws (this w)) as [t|] eqn:Et; [|apply rtc_refl].
    apply rtc_once. now apply el_close_call.
  - apply send_elementary. now apply Hsend.
  - unfold updateFilters. rewrite seq_1. cbn [modify fst].
    eapply rtc_l; [apply (el_filters allowed w f)|].
    apply send_elementary, allows_protocol, protocol_subscribe.
  - destruct (listening w t) as [[| | |]|] eqn:El; try apply rtc_refl.
    rewrite seq_1. cbn [modify fst].
    eapply rtc_l; [now apply (el_opened allowed w t)|].
    unfold onopen, startPingInterval. rewrite !seq_1. cbn [modify emit fst].
    eapply rtc_l; [apply (el_isConnecting allowed _ false)|].
    eapply rtc_l; [apply el_count_reset|]. apply rtc_once, el_heartbeat.
  - destruct (listening w t) as [[| | |]|]; try apply rtc_refl.
    apply onmessage_elementary.
  - assert (G : forall r, listening w t = Some r -> r <> CLOSED ->
                rtc (elementary allowed) w
                  ((modify (alter_socket (with_readyState CLOSED) t) >>> onclose code) w).1).
    { intros r Hl Hr. rewrite seq_1. cbn [modify fst].
      eapply rtc_l; [now apply (el_closed allowed w t r)|]. apply onclose_elementary. }
    destruct (listening w t) as [[| | |]|] eqn:El; try apply rtc_refl;
      (eapply G; [reflexivity | discriminate]).
  - destruct (listening w t) as [r|]; [|apply rtc_refl].
    unfold onerror. rewrite seq_1. cbn [modify emit fst].
    apply rtc_once, el_isConnecting.
  - destruct (timers w !! h) as [[|d]|]; try apply rtc_refl.
    unfold ping_timer_fired. destruct (ws_is_open w); [|apply rtc_refl].
    apply send_elementary, allows_protocol, protocol_ping.
  - destruct (timers w !! h) as [[|d]|] eqn:E; try apply rtc_refl.
    rewrite seq_1. cbn [modify fst].
    eapply rtc_l; [now apply (el_timer_fired allowed w h d)|]. apply connect_elementary.
Qed.
End Chains.

Lemma run_elementary inputs : forall w, rtc (elementary (frames_of inputs)) w (run inputs w).1.
Proof.
  induction inputs as [|i rest IH]; intros w; [apply rtc_refl|].
  rewrite run_1. eapply rtc_trans.
  - apply step_elementary; [now left|]. intros m ->. right. now left.
  - apply (rtc_elementary_mono (frames_of rest)); [|apply IH].
    intros m [H | H]; [now left | right; now right].
Qed.

(** An invariant of the elementary changes holds along every run. *)
Lemma run_invariant_frames inputs (P : World -> Prop) :
  (forall w w', elementary (frames_of inputs) w w' -> P w -> P w') ->
  forall w, P w -> P (run inputs w).1.
Proof.
  intros Hel w Hw.
  assert (G : forall a b, rtc (elementary (frames_of inputs)) a b -> P a -> P b).
  { intros a b Hab. induction Hab as [|a b c Hab Hbc IH]; [tauto|]. intros Ha. eauto. }
  exact (G _ _ (run_elementary inputs w) Hw).
Qed.

Lemma run_invariant (P : World -> Prop) :
  (forall allowed w w', elementary allowed w w' -> P w -> P w') ->
  forall inputs w, P w -> P (run inputs w).1.
Proof. intros Hel inputs. apply run_invariant_frames. apply Hel. Qed.

(** ** Invariants of every run *)

Lemma alter_socket_all (P : Socket -> Prop) f t w :
  (forall t' s, sockets w !! t' = Some s -> P s) ->
  (forall s, sockets w !! t = Some s -> P (f s)) ->
  forall t' s', sockets (alter_socket f t w) !! t' = Some s' -> P s'.
Proof.
  intros Hall Hf t' s' H. rewrite alter_socket_lookup in H.
  destruct (decide (t = t')) as [<-|_]; [|now apply (Hall t')].
  destruct (sockets w !! t) as [s|] eqn:E; [|discriminate].
  simpl in H. inversion H. now apply Hf.
Qed.

Lemma same_config_refl w : same_config w w.
Proof. repeat split. Qed.

Lemma elementary_same_config a w w' : elementary a w w' -> same_config w w'.
Proof. destruct 1; repeat split. Qed.

Lemma run_same_config (inputs : list Input) (w : World) :
  same_config w (run inputs w).1.
Proof.
  apply (run_invariant (same_config w)); [|apply same_config_refl].
  intros al a b Hab (H1 & H2 & H3 & H4).
  destruct (elementary_same_config al a b Hab) as (G1 & G2 & G3 & G4).
  repeat split; congruence.
Qed.

(** X7. Whatever world a run starts from, nothing that happens in it
    changes the token, the retry cap, the base delay or the endpoint
    variable: of the options only the filters are ever replaced. *)
Theorem X7_config_is_stable (w : World) (inputs : list Input) :
  let w' := (run inputs w).1 in
  token (options (this w')) = token (options (this w))
  /\ reconnectAttempts (options (this w')) = reconnectAttempts (options (this w))
  /\ reconnectDelay (options (this w')) = reconnectDelay (options (this w))
  /\ NEXT_PUBLIC_WS_URL w' = NEXT_PUBLIC_WS_URL w.
Proof. exact (run_same_config inputs w). Qed.

Lemma elementary_owns_newest a w w' : elementary a w w' -> owns_newest w -> owns_newest w'.
Proof.
  intros Hel [Hws Hh].
  assert (A : forall f t, (forall s, sock_handlers (f s) = sock_handlers s) ->
              owns_newest (alter_socket f t w)).
  { intros f t Hf. split.
    - rewrite alter_socket_length. exact Hws.
    - apply Forall_lookup. intros t' s'.
      apply (alter_socket_all (fun s => sock_handlers s = true) f t w).
      + intros i s Hs. exact (proj1 (Forall_lookup _ _) Hh i s Hs).
      + intros s Hs. rewrite Hf. exact (proj1 (Forall_lookup _ _) Hh t s Hs). }
  destruct Hel; try (split; assumption); try (apply A; reflexivity).
  split.
  - cbn [connected_to set_ws upd_this upd_sockets set_isConnecting this ws sockets].
    rewrite length_app. simpl. now rewrite Nat.add_1_r.
  - apply Forall_app. split; [exact Hh|]. now repeat constructor.
Qed.

(** X8. From the moment it is built, the socket a channel owns is always
    the one it created last ([None] before the first [connect]), and
    every socket it created has its four callbacks. *)
Theorem X8_owned_socket_is_newest (env : option string) (o : ConnectionOptions)
    (inputs : list Input) :
  owns_newest (run inputs (boot env o)).1.
Proof.
  apply (run_invariant owns_newest); [apply elementary_owns_newest|].
  split; [reflexivity | constructor].
Qed.

Lemma elementary_urls a w w' : elementary a w w' -> urls_configured w -> urls_configured w'.
Proof.
  intros Hel Hu.
  assert (A : forall f t, (forall s, sock_url (f s) = sock_url s) ->
              urls_configured (alter_socket f t w)).
  { intros f t Hf t' s'.
    apply (alter_socket_all
             (fun s => url_prefix (sock_url s) = String.append (baseUrl w) "/api/v1/ws/connect?"
                       /\ head (url_query (sock_url s))
                          = Some ("token", PText (token (options (this w))))) f t w).
    - exact Hu.
    - intros s Hs. rewrite Hf. now apply (Hu t). }
  destruct Hel; try exact Hu; try (apply A; reflexivity).
  intros t s Hs. cbn [connected_to set_ws upd_this upd_sockets set_isConnecting sockets] in Hs.
  apply lookup_app_Some in Hs as [Hs | [_ Hs]]; [now apply (Hu t)|].
  destruct (t - length (sockets w)) as [|n]; [|now destruct n].
  simpl in Hs. inversion Hs. split; reflexivity.
Qed.

(** X9. Every socket a channel ever creates is addressed to the endpoint
    taken from [NEXT_PUBLIC_WS_URL] (or the local default) and carries
    the token of the options as the first query parameter. *)
Theorem X9_sockets_use_configured_url (env : option string) (o : ConnectionOptions)
    (inputs : list Input) :
  let w := (run inputs (boot env o)).1 in
  forall t s, sockets w !! t = Some s ->
    url_prefix (sock_url s)
    = String.append (baseUrl (boot env o)) "/api/v1/ws/connect?"
    /\ head (url_query (sock_url s)) = Some ("token", PText (token o)).
Proof.
  intros w t s Hs.
  assert (Hu : urls_configured w).
  { apply (run_invariant urls_configured); [apply elementary_urls|].
    intros t' s' H. discriminate. }
  destruct (run_same_config inputs (boot env o)) as (H1 & _ & _ & H4).
  destruct (Hu t s Hs) as [G1 G2]. fold w in H1, H4.
  unfold baseUrl in *. rewrite H4 in G1. rewrite H1 in G2. split; assumption.
Qed.

Lemma X9_sockets_use_configured_url_witness :
  let w := (run reconnect_once_run (boot None plain_options)).1 in
  (sock_readyState <$> sockets w !! 1) = Some CONNECTING
  /\ forall s, sockets w !! 1 = Some s ->
       url_prefix (sock_url s)
       = String.append (baseUrl (boot None plain_options)) "/api/v1/ws/connect?"
       /\ head (url_query (sock_url s)) = Some ("token", PText (token plain_options)).
Proof.
  split; [vm_compute; reflexivity|].
  exact (X9_sockets_use_configured_url None plain_options reconnect_once_run 1).
Defined.

Lemma elementary_budget a w w' : elementary a w w' -> count_in_budget w -> count_in_budget w'.
Proof.
  intros Hel [H0 Hcap]. destruct Hel; try (split; assumption).
  - split; [reflexivity|]. intros m Hm Hpos. simpl. lia.
  - unfold gives_up in Hgo. apply orb_false_elim in Hgo as [_ H]. split; [simpl; lia|].
    intros m Hm Hpos. simpl in Hm |- *. rewrite Hm in H. simpl in H.
    replace (m =? 0)%Z with false in H by (symmetry; apply Z.eqb_neq; lia).
    simpl in H. apply Z.leb_gt in H. lia.
Qed.

(** X6. Under a cap that is a positive integer, a retry counter that is
    between zero and the cap (it starts at zero) stays between zero and
    the cap, whatever happens to the channel. *)
Theorem X6_counter_within_budget (w : World) (inputs : list Input) (m : Z) :
  reconnectAttempts (options (this w)) = Some m ->
  (0 < m)%Z ->
  (0 <= reconnectCount (this w) <= m)%Z ->
  (0 <= reconnectCount (this (run inputs w).1) <= m)%Z.
Proof.
  intros Hm Hpos [H0 H1].
  assert (Hb : count_in_budget (run inputs w).1).
  { apply (run_invariant count_in_budget); [apply elementary_budget|].
    split; [exact H0|]. intros k Hk _. congruence. }
  destruct Hb as [G0 Gcap]. split; [exact G0|]. apply Gcap; [|exact Hpos].
  destruct (run_same_config inputs w) as (_ & H2 & _). now rewrite H2.
Qed.

Lemma X6_counter_within_budget_witness :
  reconnectCount (this (run seven_closures_run (boot None plain_options)).1) = 5%Z
  /\ (0 <= reconnectCount (this (run seven_closures_run (boot None plain_options)).1) <= 5)%Z.
Proof.
  split; [vm_compute; reflexivity|].
  assert (H : (0 <= reconnectCount (this (boot None plain_options)) <= 5)%Z)
    by (vm_compute; split; discriminate).
  assert (Hpos : (0 < 5)%Z) by reflexivity.
  exact (X6_counter_within_budget (boot None plain_options) seven_closures_run 5
           eq_refl Hpos H).
Defined.

Lemma elementary_sent_after_open a w w' :
  elementary a w w' -> sent_after_open w -> sent_after_open w'.
Proof.
  intros Hel Hs.
  assert (A : forall f t,
              (forall s, sockets w !! t = Some s -> sock_sent (f s) <> [] ->
                         sock_readyState (f s) <> CONNECTING) ->
              sent_after_open (alter_socket f t w)).
  { intros f t Hf t' s'.
    apply (alter_socket_all (fun s => sock_sent s <> [] -> sock_readyState s <> CONNECTING) f t w).
    - exact Hs.
    - exact Hf. }
  destruct Hel; try exact Hs.
  - intros t s Hl. cbn [connected_to set_ws upd_this upd_sockets set_isConnecting sockets] in Hl.
    apply lookup_app_Some in Hl as [Hl | [_ Hl]]; [now apply (Hs t)|].
    destruct (t - length (sockets w)) as [|n]; [|now destruct n].
    simpl in Hl. inversion Hl. simpl. congruence.
  - apply A. intros s Hl _. simpl.
    unfold ws_is_open, ws_readyState in Hopen. rewrite Hws, Hl in Hopen. simpl in Hopen.
    destruct (sock_readyState s); discriminate.
  - apply A. intros s _ _. discriminate.
  - apply A. intros s _ _. discriminate.
  - apply A. intros s Hl' _. simpl. destruct (sock_readyState s); discriminate.
Qed.

(** X10. A channel never hands a frame to a socket that is still
    connecting: on every run, a socket whose send log is not empty has
    left the connecting state. *)
Theorem X10_no_send_while_connecting (env : option string) (o : ConnectionOptions)
    (inputs : list Input) :
  let w := (run inputs (boot env o)).1 in
  forall t s, sockets w !! t = Some s ->
    sock_readyState s = CONNECTING -> sock_sent s = [].
Proof.
  intros w t s Hl Hr.
  assert (Hs : sent_after_open w).
  { apply (run_invariant sent_after_open); [apply elementary_sent_after_open|].
    intros t' s' H. discriminate. }
  destruct (sock_sent s) eqn:E; [reflexivity|]. exfalso.
  apply (Hs t s Hl); [rewrite E; discriminate | exact Hr].
Qed.

Lemma X10_no_send_while_connecting_witness :
  let w := (run early_sends_run (boot None plain_options)).1 in
  (sock_readyState <$> sockets w !! 0) = Some CONNECTING
  /\ forall s, sockets w !! 0 = Some s -> sock_readyState s = CONNECTING -> sock_sent s = [].
Proof.
  split; [vm_compute; reflexivity|].
  exact (X10_no_send_while_connecting None plain_options early_sends_run 0).
Defined.

(** ** What is written to the sockets *)

Lemma elementary_only_sent a w w' : elementary a w w' -> only_sent a w -> only_sent a w'.
Proof.
  intros Hel Hs.
  assert (A : forall f t,
              (forall s, sockets w !! t = Some s ->
                         forall m, In m (sock_sent (f s)) -> a m) ->
              only_sent a (alter_socket f t w)).
  { intros f t Hf t' s' m Hl Hin.
    exact (alter_socket_all (fun s => forall m, In m (sock_sent s) -> a m) f t w
             (fun i s Hi m0 Hm => Hs i s m0 Hi Hm) Hf t' s' Hl m Hin). }
  destruct Hel; try exact Hs.
  - intros t s m Hl. cbn [connected_to set_ws upd_this upd_sockets set_isConnecting sockets] in Hl.
    apply lookup_app_Some in Hl as [Hl | [_ Hl]]; [now apply (Hs t)|].
    destruct (t - length (sockets w)) as [|n]; [|now destruct n].
    simpl in Hl. inversion Hl. simpl. tauto.
  - apply A. intros s Hk m0 Hin. simpl in Hin. apply in_app_iff in Hin as [Hin | [<- | []]];
      [now apply (Hs t s) | assumption].
  - apply A. intros s Hk m Hin. now apply (Hs t s).
  - apply A. intros s Hk m Hin. now apply (Hs t s).
  - apply A. intros s Hk m Hin. now apply (Hs t s).
Qed.

(** X2. Whatever the run, every frame a channel has written to one of its
    sockets is a ping, a pong or a subscribe envelope, or a message the
    caller passed to [send] during that run. *)
Theorem X2_frames_on_the_wire (env : option string) (o : ConnectionOptions)
    (inputs : list Input) :
  let w := (run inputs (boot env o)).1 in
  forall t s m, sockets w !! t = Some s -> In m (sock_sent s) ->
    protocol_frame m \/ In (Call_send m) inputs.
Proof.
  intros w.
  apply (run_invariant_frames inputs (only_sent (frames_of inputs))).
  - apply elementary_only_sent.
  - intros t s m H. discriminate.
Qed.

Lemma X2_frames_on_the_wire_witness :
  let w := (run busy_run (boot None plain_options)).1 in
  (length <$> (sock_sent <$> sockets w !! 0)) = Some 4
  /\ forall s m, sockets w !! 0 = Some s -> In m (sock_sent s) ->
       protocol_frame m \/ In (Call_send m) busy_run.
Proof.
  split; [vm_compute; reflexivity|].
  exact (X2_frames_on_the_wire None plain_options busy_run 0).
Defined.

(** ** Connecting *)



(** ** Sending *)

Lemma alter_socket_sockets f t w s :
  sockets w !! t = Some s -> sockets (alter_socket f t w) = <[t := f s]> (sockets w).
Proof. intros H. unfold alter_socket, upd_sockets. cbn [sockets]. now rewrite H. Qed.

Lemma send_open m w t s :
  ws (this w) = Some t -> sockets w !! t = Some s -> sock_readyState s = OPEN ->
  send m w = (alter_socket (with_sent m) t w, []).
Proof.
  intros Hws Hs Hr. unfold send, ws_is_open, ws_readyState. rewrite Hws, Hs. cbn.
  now rewrite Hr.
Qed.

(** X4. [updateFilters] on a channel whose owned socket is open stores
    the new filters in place of the old ones and writes exactly one
    subscribe frame carrying them to that socket; nothing is emitted and
    no other socket is touched. *)
Theorem X4_update_filters_online (w : World) (t : nat) (s : Socket) (f : WebSocketFilters) :
  ws (this w) = Some t ->
  sockets w !! t = Some s ->
  sock_readyState s = OPEN ->
  let r := updateFilters f w in
  let frame := VObj [("type", VStr "subscribe"); ("filters", filters_value f)] in
  r.2 = []
  /\ filters (options (this r.1)) = Some f
  /\ sockets r.1 = <[t := with_sent frame s]> (sockets w)
  /\ frames_sent r.1 = <[t := sock_sent s ++ [frame]]> (frames_sent w).
Proof.
  intros Hws Hs Hr. cbv zeta. unfold updateFilters. rewrite seq_1, seq_2.
  cbn [modify fst snd app].
  rewrite (send_open _ (set_options (set_filters f (options (this w))) w) t s Hws Hs Hr).
  cbn [fst snd]. split; [reflexivity|]. split; [reflexivity|].
  assert (E : sockets (alter_socket
                (with_sent (VObj [("type", VStr "subscribe"); ("filters", filters_value f)])) t
                (set_options (set_filters f (options (this w))) w))
              = <[t := with_sent (VObj [("type", VStr "subscribe");
                                        ("filters", filters_value f)]) s]> (sockets w))
    by exact (alter_socket_sockets _ t (set_options (set_filters f (options (this w))) w) s Hs).
  split; [exact E|]. unfold frames_sent. rewrite E. now rewrite list_fmap_insert.
Qed.

Lemma X4_update_filters_online_witness :
  frames_sent (updateFilters some_filters opened_world).1
  = [[VObj [("type", VStr "subscribe"); ("filters", filters_value some_filters)]]].
Proof.
  destruct (X4_update_filters_online opened_world 0
              (with_handlers (with_readyState OPEN
                 (fresh_socket (wsUrl (boot None plain_options)))))
              some_filters eq_refl eq_refl eq_refl) as (_ & _ & _ & H).
  exact H.
Defined.

(** X3. A tick of the heartbeat never emits an event and never changes a
    field of the channel or a timer, whether or not the owned socket is
    open; when it is open the tick writes exactly one ping frame with the
    local time to it, and otherwise it writes nothing. *)
Theorem X3_heartbeat_tick (w : World) (h : nat) (now : string) :
  let r := step (PingTimerFires h now) w in
  r.2 = []
  /\ this r.1 = this w
  /\ timers r.1 = timers w
  /\ (ws_is_open w = false -> r.1 = w)
  /\ (forall t s, timers w !! h = Some PingTimer ->
        ws (this w) = Some t -> sockets w !! t = Some s -> sock_readyState s = OPEN ->
        sockets r.1
        = <[t := with_sent (VObj [("type", VStr "ping"); ("client_time", VStr now)]) s]>
            (sockets w)).
Proof.
  cbv zeta. unfold step, ping_timer_fired, send.
  split; [|split; [|split; [|split]]].
  - destruct (timers w !! h) as [[|d]|]; try reflexivity.
    destruct (ws_is_open w); [|reflexivity]. now destruct (ws (this w)).
  - destruct (timers w !! h) as [[|d]|]; try reflexivity.
    destruct (ws_is_open w); [|reflexivity]. now destruct (ws (this w)).
  - destruct (timers w !! h) as [[|d]|]; try reflexivity.
    destruct (ws_is_open w); [|reflexivity]. now destruct (ws (this w)).
  - intros ->. now destruct (timers w !! h) as [[|d]|].
  - intros t s Hh Hws Hs Hr. rewrite Hh.
    assert (Ho : ws_is_open w = true)
      by (unfold ws_is_open, ws_readyState; rewrite Hws, Hs; cbn; now rewrite Hr).
    rewrite Ho, Hws. cbn [modify fst]. now apply alter_socket_sockets.
Qed.

Lemma X3_heartbeat_tick_witness :
  let s0 := with_handlers (with_readyState OPEN
              (fresh_socket (wsUrl (boot None plain_options)))) in
  ws_is_open pending_world = false
  /\ (step (PingTimerFires 2 "12:00:30") pending_world).1 = pending_world
  /\ sockets opened_world !! 0 = Some s0
  /\ sockets (step (PingTimerFires 1 "12:00:30") opened_world).1
     = <[0 := with_sent (VObj [("type", VStr "ping"); ("client_time", VStr "12:00:30")]) s0]>
         (sockets opened_world).
Proof.
  intros s0.
  assert (H : ws_is_open pending_world = false) by (vm_compute; reflexivity).
  assert (H1 : timers opened_world !! 1 = Some PingTimer) by (vm_compute; reflexivity).
  assert (H2 : ws (this opened_world) = Some 0) by (vm_compute; reflexivity).
  assert (H3 : sockets opened_world !! 0 = Some s0) by (vm_compute; reflexivity).
  assert (H4 : sock_readyState s0 = OPEN) by reflexivity.
  split; [exact H|].
  destruct (X3_heartbeat_tick pending_world 2 "12:00:30") as (_ & _ & _ & G4 & _).
  destruct (X3_heartbeat_tick opened_world 1 "12:00:30") as (_ & _ & _ & _ & G5).
  split; [exact (G4 H)|]. split; [exact H3|]. exact (G5 0 s0 H1 H2 H3 H4).
Defined.

(** ** Closing *)

(** X5. A close event with the normal-closure code is never retried, flag
    or no flag: it emits [disconnected] alone, empties both timer handles,
    arms no timer, and leaves the retry counter and the flag as they
    were. *)
Theorem X5_normal_closure (w : World) (t : nat) (r : ReadyState) :
  listening w t = Some r ->
  r <> CLOSED ->
  let res := step (SocketClose t 1000) w in
  res.2 = [("disconnected", CloseEvent 1000)]
  /\ pingInterval (this res.1) = None
  /\ reconnectTimeout (this res.1) = None
  /\ isConnecting (this res.1) = false
  /\ reconnectCount (this res.1) = reconnectCount (this w)
  /\ shouldReconnect (this res.1) = shouldReconnect (this w)
  /\ (forall h x, timers res.1 !! h = Some x -> timers w !! h = Some x)
  /\ (sock_readyState <$> sockets res.1 !! t) = Some CLOSED.
Proof.
  intros Hl Hr res.
  assert (E : res = (modify (alter_socket (with_readyState CLOSED) t) >>> onclose 1000) w).
  { subst res. unfold step. rewrite Hl. now destruct r. }
  rewrite E, seq_1, seq_2. cbn [modify fst snd app]. rewrite onclose_spec. cbn [Z.eqb Pos.eqb fst snd].
  repeat split.
  - intros h x H. now apply cleaned_lookup in H.
  - change (sock_readyState <$> sockets (alter_socket (with_readyState CLOSED) t w) !! t
            = Some CLOSED).
    rewrite alter_socket_lookup, decide_True by reflexivity.
    unfold listening in Hl. now destruct (sockets w !! t).
Qed.

Lemma X5_normal_closure_witness :
  listening opened_world 0 = Some OPEN
  /\ (step (SocketClose 0 1000) opened_world).2 = [("disconnected", CloseEvent 1000)]
  /\ shouldReconnect (this (step (SocketClose 0 1000) opened_world).1)
     = shouldReconnect (this opened_world).
Proof.
  assert (Hl : listening opened_world 0 = Some OPEN) by (vm_compute; reflexivity).
  assert (Hr : OPEN <> CLOSED) by discriminate.
  destruct (X5_normal_closure opened_world 0 OPEN Hl Hr) as (H1 & _ & _ & _ & _ & H6 & _).
  split; [exact Hl|]. split; [exact H1 | exact H6].
Defined.

(** X11. Only a close event, or a [connect] on which the constructor
    throws, ever reaches [scheduleReconnect]: any other input (an error
    event of a socket included) emits neither [reconnecting] nor
    [reconnectFailed], arms no reconnect timer, and leaves the retry
    counter as it was or, for an open, at zero. *)
Theorem X11_what_schedules (i : Input) (w : World) :
  may_schedule i = false ->
  let r := step i w in
  ~ In "reconnecting" (channels r.2)
  /\ ~ In "reconnectFailed" (channels r.2)
  /\ (forall h d, timers r.1 !! h = Some (ReconnectTimer d) ->
                  timers w !! h = Some (ReconnectTimer d))
  /\ (reconnectCount (this r.1) = reconnectCount (this w)
      \/ reconnectCount (this r.1) = 0%Z).
Proof.
  intros Hi. cbv zeta.
  destruct i as [b| |m|f|t|t data|t code|t|h now|h b]; unfold step; try discriminate.
  - destruct b; [discriminate|]. rewrite connect_spec.
    match goal with |- context [if ?c then _ else _] => destruct c end;
      cbn [fst snd]; repeat split; auto.
  - rewrite disconnect_spec. cbn [fst snd]. split; [tauto|]. split; [tauto|]. split.
    + intros h d H. apply (cleaned_lookup (set_shouldReconnect false w)).
      now destruct (ws (this w)).
    + left. now destruct (ws (this w)).
  - destruct (send_keeps m w) as (H1 & H2 & _ & [H4 | H4]); rewrite H1, H2, H4;
      simpl; intuition discriminate.
  - unfold updateFilters. rewrite seq_1, seq_2.
    match goal with |- context [send ?m ?w'] =>
      destruct (send_keeps m w') as (H1 & H2 & _ & [H4 | H4]); rewrite H1, H2, H4 end;
      simpl; intuition discriminate.
  - destruct (listening w t) as [[| | |]|]; simpl; auto.
    split; [intuition discriminate|]. split; [intuition discriminate|]. split; [|now right].
    intros h d H. apply lookup_insert_Some in H as [[_ H]|[_ H]]; [discriminate|assumption].
  - destruct (listening w t) as [[| | |]|]; simpl; auto.
    destruct (onmessage_keeps data w) as (H1 & H2 & _ & H4 & H5). rewrite H1, H2. auto.
  - destruct (listening w t) as [r|]; simpl; auto. intuition discriminate.
  - destruct (timers w !! h) as [[|d]|]; simpl; auto.
    unfold ping_timer_fired. destruct (ws_is_open w); [|simpl; auto].
    match goal with |- context [send ?m ?w'] =>
      destruct (send_keeps m w') as (H1 & H2 & _ & [H4 | H4]); rewrite H1, H2, H4 end;
      simpl; intuition discriminate.
  - destruct b; [discriminate|].
    destruct (timers w !! h) as [[|d]|] eqn:E; simpl; auto.
    rewrite seq_1, seq_2. cbn [modify fst snd app]. unfold reconnect_timer_fired.
    rewrite connect_spec.
    assert (D : forall h' d', delete h (timers w) !! h' = Some (ReconnectTimer d') ->
                              timers w !! h' = Some (ReconnectTimer d'))
      by (intros h' d' H; apply lookup_delete_Some in H; tauto).
    match goal with |- context [if ?c then _ else _] => destruct c end;
      cbn [fst snd]; repeat split; auto.
Qed.

Lemma X11_what_schedules_witness :
  (step (SocketError 0) opened_world).2 = [("error", TransportError)]
  /\ ~ In "reconnecting" (channels (step (SocketError 0) opened_world).2)
  /\ forall h d, timers (step (SocketError 0) opened_world).1 !! h = Some (ReconnectTimer d) ->
                 timers opened_world !! h = Some (ReconnectTimer d).
Proof.
  destruct (X11_what_schedules (SocketError 0) opened_world eq_refl) as (H1 & _ & H3 & _).
  split; [reflexivity|]. split; [exact H1 | exact H3].
Defined.

(** ** The getters *)

(** X12. The three getters agree: [isConnected] holds exactly when
    [connectionState] is [connected] and exactly when [readyState] is
    open; a channel without a socket reads as closed and [disconnected],
    the same as one whose socket is closed. *)
Theorem X12_getters_agree (w : World) :
  (isConnected w = true <-> connectionState w = "connected")
  /\ (isConnected w = true <-> readyState w = OPEN)
  /\ (ws (this w) = None -> readyState w = CLOSED /\ connectionState w = "disconnected")
  /\ (readyState w = CLOSED -> isConnected w = false /\ connectionState w <> "connecting").
Proof.
  unfold isConnected, connectionState, readyState, ws_is_open, ws_readyState.
  destruct (ws (this w)) as [t|]; cbn [default].
  - destruct (sockets w !! t) as [s|]; cbn [fmap option_fmap option_map default];
      [destruct (sock_readyState s)|];
      (split; [split; intros H; (reflexivity || discriminate)|]);
      (split; [split; intros H; (reflexivity || discriminate)|]);
      (split; [intros H; discriminate|]);
      intros H; (discriminate || (split; [reflexivity | intros ?; discriminate])).
  - split; [split; intros H; discriminate|]. split; [split; intros H; discriminate|].
    split; [intros _; split; reflexivity|]. intros _. split; [reflexivity | intros ?; discriminate].
Qed.

Lemma X12_getters_agree_witness :
  connectionState opened_world = "connected" /\ readyState opened_world = OPEN.
Proof.
  destruct (X12_getters_agree opened_world) as (H1 & H2 & _).
  split; [exact (proj1 H1 eq_refl) | exact (proj1 H2 eq_refl)].
Defined.

(** ** Calls that follow one another *)

(** X13. [disconnect] does not reset [isConnecting]: called while a
    connection attempt is under way it leaves the channel connecting, so
    a [connect] issued right after it is ignored until the socket's close
    or error event arrives. *)
Theorem X13_disconnect_while_connecting (w : World) :
  isConnecting (this w) = true ->
  let w1 := (disconnect w).1 in
  isConnecting (this w1) = true
  /\ forall b, connect b w1 = (w1, []).
Proof.
  intros Hc w1.
  assert (H1 : isConnecting (this w1) = true).
  { subst w1. rewrite disconnect_spec. cbn [fst]. now destruct (ws (this w)). }
  split; [exact H1|]. intros b. rewrite connect_spec, H1. now rewrite orb_true_r.
Qed.

Lemma X13_disconnect_while_connecting_witness :
  let w := (connect false (boot None plain_options)).1 in
  isConnecting (this w) = true
  /\ connect false (disconnect w).1 = ((disconnect w).1, []).
Proof.
  intros w.
  assert (H : isConnecting (this w) = true) by (vm_compute; reflexivity).
  split; [exact H|]. exact (proj2 (X13_disconnect_while_connecting w H) false).
Defined.

(** X14. [startPingInterval] stores the new handle without clearing the
    one it replaces.  If a socket opens while the handle of an earlier
    heartbeat is still in [pingInterval], that earlier interval stays
    live and is out of reach: a later [disconnect] cancels the new
    heartbeat only. *)
Theorem X14_heartbeat_not_replaced (w : World) (t h : nat) :
  listening w t = Some CONNECTING ->
  pingInterval (this w) = Some h ->
  timers w !! h = Some PingTimer ->
  h <> next_timer w ->
  reconnectTimeout (this w) <> Some h ->
  let w1 := (step (SocketOpen t) w).1 in
  let w2 := (disconnect w1).1 in
  pingInterval (this w1) = Some (next_timer w)
  /\ timers w1 !! next_timer w = Some PingTimer
  /\ timers w1 !! h = Some PingTimer
  /\ pingInterval (this w2) = None
  /\ timers w2 !! next_timer w = None
  /\ timers w2 !! h = Some PingTimer.
Proof.
  intros Hl Hp Hh Hne Hr w1 w2.
  assert (E1 : this w1 = this (setInterval_ping (set_reconnectCount 0 (set_isConnecting false w)))
               /\ timers w1 = <[next_timer w := PingTimer]> (timers w)).
  { subst w1. unfold step. rewrite Hl. split; reflexivity. }
  destruct E1 as [Et Em].
  assert (E2 : this w2 = this (cleaned (set_shouldReconnect false w1))
               /\ timers w2 = timers (cleaned (set_shouldReconnect false w1))).
  { subst w2. rewrite disconnect_spec. cbn [fst]. now destruct (ws (this w1)). }
  destruct E2 as [Et2 Em2].
  split; [now rewrite Et|]. split; [rewrite Em; apply lookup_insert_eq|].
  split; [rewrite Em, lookup_insert_ne by congruence; exact Hh|].
  split; [now rewrite Et2|].
  rewrite Em2. cbn [cleaned set_reconnectTimeout set_pingInterval upd_timers upd_this timers
                    set_shouldReconnect this pingInterval reconnectTimeout].
  rewrite Et, Em. cbn [setInterval_ping bump_next_timer set_pingInterval upd_this upd_timers
                       set_reconnectCount set_isConnecting this pingInterval reconnectTimeout
                       odelete].
  change (next_timer (set_reconnectCount 0 (set_isConnecting false w))) with (next_timer w).
  destruct (reconnectTimeout (this w)) as [k|] eqn:Ek; cbn [odelete].
  - split.
    + rewrite lookup_delete. case_decide; [reflexivity|]. apply lookup_delete_eq.
    + rewrite !lookup_delete_ne, lookup_insert_ne by congruence. exact Hh.
  - split; [apply lookup_delete_eq|].
    rewrite lookup_delete_ne, lookup_insert_ne by congruence. exact Hh.
Qed.

Lemma X14_heartbeat_not_replaced_witness :
  let w := (run two_sockets_run (boot None plain_options)).1 in
  let w2 := (disconnect (step (SocketOpen 2) w).1).1 in
  pingInterval (this w) = Some 2
  /\ pingInterval (this w2) = None
  /\ timers w2 !! 2 = Some PingTimer.
Proof.
  intros w w2.
  assert (H1 : listening w 2 = Some CONNECTING) by (vm_compute; reflexivity).
  assert (H2 : pingInterval (this w) = Some 2) by (vm_compute; reflexivity).
  assert (H3 : timers w !! 2 = Some PingTimer) by (vm_compute; reflexivity).
  assert (H4 : 2 <> next_timer w) by (vm_compute; discriminate).
  assert (H5 : reconnectTimeout (this w) <> Some 2) by (vm_compute; discriminate).
  destruct (X14_heartbeat_not_replaced w 2 2 H1 H2 H3 H4 H5) as (_ & _ & _ & G4 & _ & G6).
  split; [exact H2|]. split; [exact G4 | exact G6].
Defined.

(** ** The hook *)

Lemma hook_after_app a b h : hook_after (a ++ b) h = hook_after b (hook_after a h).
Proof. apply fold_left_app. Qed.

(** What [dispatch] emits leaves the state of the hook alone. *)
Lemma hook_after_dispatch ty m w h : hook_after (dispatch ty m w).2 h = h.
Proof.
  unfold dispatch.
  destruct (is_case "ping" ty).
  { match goal with |- context [send ?x ?y] =>
      destruct (send_keeps x y) as (_ & _ & _ & [-> | ->]) end; reflexivity. }
  repeat (case_match; [reflexivity|]). reflexivity.
Qed.

(** X16. The hook's [lastMessage] is fed from the raw-message channel:
    after a frame delivered on the owned, open socket that parses to a
    value with a readable [type], heartbeat frames (ping, pong)
    included, no [error] event has been emitted, [lastMessage] is that
    value, and the hook's connection state is as before. *)
Theorem X16_hook_last_message (w : World) (t : nat) (message : Value) (h : HookState) :
  ws (this w) = Some t ->
  listening w t = Some OPEN ->
  get_prop message "type" <> None ->
  let out := (step (SocketMessage t (Parsed message)) w).2 in
  ~ In "error" (channels out)
  /\ hook_lastMessage (hook_after out h) = Some message
  /\ hook_connectionState (hook_after out h) = hook_connectionState h.
Proof.
  intros Hws Hl Hty out. subst out. rewrite (step_message_delivered _ _ _ Hl).
  unfold onmessage, handleMessage.
  destruct (get_prop message "type") as [ty|]; [|congruence].
  rewrite seq_2, hook_after_app, hook_after_dispatch.
  split; [|split; reflexivity].
  rewrite channels_app, in_app_iff. intros [H | H]; [|simpl in H; intuition discriminate].
  revert H. unfold dispatch.
  destruct (is_case "ping" ty).
  { unfold listening in Hl. destruct (sockets w !! t) as [s|] eqn:Es; [|discriminate].
    destruct (sock_handlers s); [|discriminate].
    assert (Hr : sock_readyState s = OPEN) by congruence.
    rewrite (send_open _ w t s Hws Es Hr). simpl. tauto. }
  repeat (case_match; [simpl; intuition discriminate|]). simpl. intuition discriminate.
Qed.

Lemma X16_hook_last_message_witness :
  ws (this opened_world) = Some 0
  /\ listening opened_world 0 = Some OPEN
  /\ hook_lastMessage
       (hook_after (step (SocketMessage 0 (Parsed ping_frame)) opened_world).2 hook_initial)
     = Some ping_frame.
Proof.
  assert (Hws : ws (this opened_world) = Some 0) by (vm_compute; reflexivity).
  assert (Hl : listening opened_world 0 = Some OPEN) by (vm_compute; reflexivity).
  assert (Hty : get_prop ping_frame "type" <> None) by (vm_compute; discriminate).
  split; [exact Hws|]. split; [exact Hl|].
  exact (proj1 (proj2
           (X16_hook_last_message opened_world 0 ping_frame hook_initial Hws Hl Hty))).
Defined.

(** X17. After the close event of any socket of the channel the hook
    shows [reconnecting] exactly when the closure was abnormal and a
    retry was scheduled, and [disconnected] otherwise, a spent retry
    budget included; it never shows connected, and [lastMessage] is
    kept. *)
Theorem X17_hook_after_close (w : World) (t : nat) (r : ReadyState) (code : Z)
    (h : HookState) :
  listening w t = Some r ->
  r <> CLOSED ->
  let h' := hook_after (step (SocketClose t code) w).2 h in
  hook_connectionState h'
  = (if negb (code =? 1000)%Z && negb (gives_up w) then "reconnecting" else "disconnected")
  /\ hook_isConnected h' = false
  /\ hook_lastMessage h' = hook_lastMessage h.
Proof.
  intros Hl Hr h'.
  assert (E : step (SocketClose t code) w
              = (modify (alter_socket (with_readyState CLOSED) t) >>> onclose code) w).
  { unfold step. rewrite Hl. now destruct r. }
  subst h'. rewrite E, seq_2. cbn [modify snd app fst]. rewrite onclose_spec.
  set (w0 := alter_socket (with_readyState CLOSED) t w).
  set (c := cleaned (set_isConnecting false w0)). cbv zeta.
  assert (Hg : gives_up c = gives_up w) by reflexivity.
  destruct (code =? 1000)%Z; cbn [negb andb]; [repeat split|].
  change (shouldReconnect (this w0)) with (shouldReconnect (this w)).
  destruct (shouldReconnect (this w)) eqn:Hs.
  - destruct (gives_up w) eqn:G; cbn [negb].
    + rewrite (scheduleReconnect_stop c) by congruence. repeat split.
    + rewrite (scheduleReconnect_go c) by congruence. repeat split.
  - assert (G : gives_up w = true) by (unfold gives_up; now rewrite Hs).
    rewrite G. repeat split.
Qed.

Lemma X17_hook_after_close_witness :
  listening opened_world 0 = Some OPEN
  /\ hook_connectionState (hook_after (step (SocketClose 0 1006) opened_world).2 hook_initial)
     = (if negb (1006 =? 1000)%Z && negb (gives_up opened_world)
        then "reconnecting" else "disconnected")
  /\ gives_up opened_world = false.
Proof.
  assert (Hl : listening opened_world 0 = Some OPEN) by (vm_compute; reflexivity).
  assert (Hr : OPEN <> CLOSED) by discriminate.
  split; [exact Hl|]. split; [|vm_compute; reflexivity].
  exact (proj1 (X17_hook_after_close opened_world 0 OPEN 1006 hook_initial Hl Hr)).
Defined.
